(** * Dubai Housing Affordability Explorer: the financial metrics

    A shallow embedding of the arithmetic of
    [modules/affordability_calculator.py] (affordable rent, maximum
    mortgage, rent-versus-buy projection) and of
    [modules/comparison_tool.py] (per-neighbourhood affordability index),
    followed by the budget breakdown, the price table and the radar chart
    of the same two files, one generated record of [utils/data_loader.py],
    the marker radius and the list of the most affordable neighbourhoods of
    [modules/map_visualization.py] and the quarter labels of
    [modules/trend_analysis.py].

    Numbers.  The Python code computes with [int] and [float].  Here every
    number is an exact rational ([Q], compared with [==]); counts, terms and
    the result of [int(...)] are integers ([Z]).  Unless a definition says
    otherwise, the theorems state what the formulas of the code compute in
    exact arithmetic, without the rounding and the overflow of floats.

    Faults.  A division by zero is an arithmetic fault.  On Python floats
    [/] raises [ZeroDivisionError]: such a division goes through [py_div].
    On a numpy float64 [/] returns an infinity or NaN and raises nothing:
    such a division goes through [Float.np_div], and the fault shows where
    [int(...)] rejects the infinity with [OverflowError].  Both exceptions
    are an [ArithmeticError], and the model has this one exception; a
    function that can raise has an [Outcome].  A division whose divisor is a
    literal ([/ 12], [/ 100]) or is guarded by the code ([/ r] under
    [if r > 0], a mean under [if len(nb_data) > 0]) is written with [Qdiv].

    Rounding.  Where rounding changes a whole number that the program shows
    (the [int(...)] of the affordability score), the line is also given with
    the rounding of each float operation ([Float.b64]). *)

From Stdlib Require Import QArith Qround Qpower Qfield ZArith List Sorted
  Permutation String OrderedTypeEx Lia Lqa.
Import ListNotations.

Local Open Scope Q_scope.

(** ** Python primitives *)

Module Py.

(** [a < b] on numbers, as a boolean. *)
Definition Qltb (a b : Q) : bool :=
  match a ?= b with Lt => true | _ => false end.

(** What a computation that can fail does: it returns a value or raises. *)
Inductive Exception := ArithmeticError.

Inductive Outcome (A : Type) : Type :=
  | Returns (a : A)
  | Raises (e : Exception).

Arguments Returns {A} a.
Arguments Raises {A} e.

Definition bind {A B} (m : Outcome A) (k : A -> Outcome B) : Outcome B :=
  match m with
  | Returns a => k a
  | Raises e => Raises e
  end.

(** [a / b] with a divisor that the code does not guard. *)
Definition py_div (a b : Q) : Outcome Q :=
  if Qeq_bool b 0 then Raises ArithmeticError else Returns (a / b).

(** [int(x)] on a number: truncation toward zero. *)
Definition py_int (x : Q) : Z := Z.quot (Qnum x) (Zpos (Qden x)).

(** [max(a, b)] and [min(a, b)] on integers. *)
Definition py_max (a b : Z) : Z := if (a <? b)%Z then b else a.
Definition py_min (a b : Z) : Z := if (b <? a)%Z then b else a.

(** A boolean read as a number: [True] is 1 and [False] is 0. *)
Definition as_number (b : bool) : Q := if b then 1 else 0.

(** [sum(l)] and [len(l)]. *)
Definition sum (l : list Q) : Q := fold_left Qplus l 0.
Definition len {A} (l : list A) : Q := inject_Z (Z.of_nat (List.length l)).

(** [numpy.cumsum]: the running sums of [l]; the first one is [l[0]]. *)
Fixpoint cumsum_from (acc : Q) (l : list Q) : list Q :=
  match l with
  | [] => []
  | x :: t => (acc + x) :: cumsum_from (acc + x) t
  end.

Definition cumsum (l : list Q) : list Q :=
  match l with
  | [] => []
  | x :: t => x :: cumsum_from x t
  end.

(** Element-wise arithmetic of two arrays of the same length. *)
Fixpoint zip_with (f : Q -> Q -> Q) (a b : list Q) : list Q :=
  match a, b with
  | x :: a', y :: b' => f x y :: zip_with f a' b'
  | _, _ => []
  end.

(** [range(k)] as exponents. *)
Definition range (k : nat) : list Z := map Z.of_nat (seq 0 k).

End Py.

Import Py.

(** ** numpy's and Python's floating-point numbers

    Where the result of the code depends on the rounding of a float or on
    what numpy does with a zero divisor, the computation is modelled with
    [Float]: [b64] rounds a rational to the nearest number with a 53-bit
    significand, a tie to the even one, as every operation on a binary64
    float does (overflow and subnormal numbers are left out: the exponent
    is unbounded); [Number] adds the infinities and NaN that numpy returns
    where Python raises. *)

Module Float.

(** For [x > 0], the [m] with [2 ^ (m - 1) <= x < 2 ^ m]. *)
Definition mag (x : Q) : Z :=
  let k := (Z.log2 (Qnum x) - Z.log2 (Zpos (Qden x)))%Z in
  if Qltb x (2 ^ k) then k else (k + 1)%Z.

(** To the nearest integer, a tie to the even one. *)
Definition nearest_even (x : Q) : Z :=
  let f := Qfloor x in
  match ((x - inject_Z f) ?= (1 # 2))%Q with
  | Lt => f
  | Gt => (f + 1)%Z
  | Eq => if Z.even f then f else (f + 1)%Z
  end.

(** The nearest float of a positive number: a significand of 53 bits. *)
Definition b64_pos (x : Q) : Q :=
  let e := (mag x - 53)%Z in
  inject_Z (nearest_even (x / 2 ^ e)) * 2 ^ e.

Definition b64 (x : Q) : Q :=
  match x ?= 0 with
  | Eq => 0
  | Gt => b64_pos x
  | Lt => - b64_pos (- x)
  end.

(** Half the distance of two neighbouring floats, relative to their size:
    [2 ^ -53]. *)
Definition eps : Q := 1 # 9007199254740992.

(** A numpy float64: a finite number, an infinity or NaN. *)
Inductive Number :=
  | Finite (q : Q)
  | PosInf
  | NegInf
  | NaN.

(** [a / b] on numpy floats, before rounding: a zero divisor gives an
    infinity of the sign of [a], or NaN for [0 / 0], with a warning and
    without an exception. *)
Definition np_div (a b : Q) : Number :=
  if Qeq_bool b 0
  then if Qltb 0 a then PosInf else if Qltb a 0 then NegInf else NaN
  else Finite (a / b).

End Float.

(** ** modules/affordability_calculator.py *)

Module AffordabilityCalculator.

(** The values of the form widgets that the computation reads.  The two
    sliders for the rent ratio and the interest rate are in percent. *)
Record FormInput := {
  yearly_income : Q;
  additional_income : Q;
  down_payment : Q;
  debt_payments : Q;
  other_expenses : Q;
  rent_income_ratio : Q;
  mortgage_interest : Q;
  mortgage_term : Z
}.

(** The form as it opens: the [value=] of every widget. *)
Definition default_form : FormInput := {|
  yearly_income := 200000;
  additional_income := 0;
  down_payment := 50000;
  debt_payments := 2000;
  other_expenses := 5000;
  rent_income_ratio := 30;
  mortgage_interest := 4.0;
  mortgage_term := 25
|}.

Definition monthly_income (f : FormInput) : Q :=
  yearly_income f / 12 + additional_income f.

Definition affordable_rent (f : FormInput) : Q :=
  monthly_income f * (rent_income_ratio f / 100).

Definition affordable_yearly_rent (f : FormInput) : Q :=
  affordable_rent f * 12.

Definition monthly_payment_capacity (f : FormInput) : Q :=
  affordable_rent f - debt_payments f.

(** [r]: the monthly interest rate; [n]: the number of payments. *)
Definition monthly_rate (f : FormInput) : Q := mortgage_interest f / 100 / 12.
Definition num_payments (f : FormInput) : Z := (mortgage_term f * 12)%Z.

(** The present-value formula, with its branch on [r > 0]. *)
Definition max_mortgage (monthly_payment_capacity r : Q) (n : Z) : Q :=
  if Qltb 0 r
  then monthly_payment_capacity * ((1 - (1 + r) ^ (- n)) / r)
  else monthly_payment_capacity * inject_Z n.

Definition max_purchase_price (max_mortgage down_payment : Q) : Q :=
  max_mortgage + down_payment.

(** What the calculator displays. *)
Record Result := {
  res_monthly_income : Q;
  res_affordable_rent : Q;
  res_affordable_yearly_rent : Q;
  res_monthly_payment_capacity : Q;
  res_max_mortgage : Q;
  res_max_purchase_price : Q
}.

Definition calculate (f : FormInput) : Result :=
  let capacity := monthly_payment_capacity f in
  let mm := max_mortgage capacity (monthly_rate f) (num_payments f) in
  {| res_monthly_income := monthly_income f;
     res_affordable_rent := affordable_rent f;
     res_affordable_yearly_rent := affordable_yearly_rent f;
     res_monthly_payment_capacity := capacity;
     res_max_mortgage := mm;
     res_max_purchase_price := max_purchase_price mm (down_payment f) |}.

(** *** Rent versus buy *)

(** [years = list(range(1, 11))]. *)
Definition years : list Z := map (fun i => (Z.of_nat i + 1)%Z) (seq 0 10).

(** [rent_costs]: the rent of each year, growing by [growth] a year.  The
    source writes the rate as the literal [0.05]. *)
Definition rent_costs_with (growth affordable_yearly_rent : Q) : list Q :=
  map (fun i => affordable_yearly_rent * (1 + growth) ^ i) (range (List.length years)).

Definition rent_costs : Q -> list Q := rent_costs_with 0.05.

Definition cumulative_rent_with (growth affordable_yearly_rent : Q) : list Q :=
  cumsum (rent_costs_with growth affordable_yearly_rent).

Definition cumulative_rent : Q -> list Q := cumulative_rent_with 0.05.

(** The amortised monthly payment; both branches divide. *)
Definition monthly_mortgage (max_mortgage r : Q) (n : Z) : Outcome Q :=
  if Qltb 0 r
  then py_div (max_mortgage * (r * (1 + r) ^ n)) ((1 + r) ^ n - 1)
  else py_div max_mortgage (inject_Z n).

(** [property_values]: the price appreciating by the literal [0.03] a year. *)
Definition property_values (max_purchase_price : Q) : list Q :=
  map (fun i => max_purchase_price * (1 + 0.03) ^ i) (range (List.length years)).

(** [net_buying_cost], from the monthly payment on. *)
Definition net_buying_cost_from
    (monthly_mortgage max_purchase_price down_payment : Q) : list Q :=
  let yearly_mortgage := monthly_mortgage * 12 in
  let mortgage_costs := repeat yearly_mortgage (List.length years) in
  let cumulative_mortgage :=
    map (fun x => x + down_payment) (cumsum mortgage_costs) in
  map (fun x => x + max_purchase_price)
      (zip_with Qminus cumulative_mortgage (property_values max_purchase_price)).

Definition net_buying_cost
    (max_mortgage max_purchase_price down_payment r : Q) (n : Z)
    : Outcome (list Q) :=
  bind (monthly_mortgage max_mortgage r n) (fun mm =>
  Returns (net_buying_cost_from mm max_purchase_price down_payment)).

End AffordabilityCalculator.

(** ** modules/comparison_tool.py *)

Module ComparisonTool.

(** A row of the data frame, with the columns the tool reads. *)
Record Listing := {
  neighborhood : string;
  property_type : string;
  bedrooms : Z;
  price_yearly_aed : Q
}.

(** The two mandatory and the two optional select boxes. *)
Definition selected_neighborhoods
    (neighborhood1 neighborhood2 neighborhood3 neighborhood4 : string)
    : list string :=
  [neighborhood1; neighborhood2]
    ++ (if String.eqb neighborhood3 "None" then [] else [neighborhood3])
    ++ (if String.eqb neighborhood4 "None" then [] else [neighborhood4]).

(** The property-type and bedroom filters. *)
Definition filtered_data
    (data : list Listing) (selected_property_type selected_bedrooms : string)
    : list Listing :=
  let by_type :=
    if String.eqb selected_property_type "All" then data
    else filter (fun l => String.eqb (property_type l) selected_property_type) data in
  if String.eqb selected_bedrooms "All" then by_type
  else if String.eqb selected_bedrooms "Studio"
       then filter (fun l => (bedrooms l =? 0)%Z) by_type
  else if String.eqb selected_bedrooms "1 BR"
       then filter (fun l => (bedrooms l =? 1)%Z) by_type
  else if String.eqb selected_bedrooms "2 BR"
       then filter (fun l => (bedrooms l =? 2)%Z) by_type
  else if String.eqb selected_bedrooms "3+ BR"
       then filter (fun l => (3 <=? bedrooms l)%Z) by_type
  else by_type.

(** [filtered_data[filtered_data["neighborhood"].isin(selected)]]. *)
Definition neighborhood_data
    (filtered : list Listing) (selected : list string) : list Listing :=
  filter (fun l => existsb (String.eqb (neighborhood l)) selected) filtered.

(** [neighborhood_data[neighborhood_data["neighborhood"] == nb]]. *)
Definition nb_data (nbd : list Listing) (nb : string) : list Listing :=
  filter (fun l => String.eqb (neighborhood l) nb) nbd.

(** [len(l) > 0]. *)
Definition nonempty {A} (l : list A) : bool :=
  match l with [] => false | _ :: _ => true end.

Definition prices (rows : list Listing) : list Q := map price_yearly_aed rows.

(** [Series.mean()]; every call is under [if len(nb_data) > 0]. *)
Definition mean (l : list Q) : Q := sum l / len l.

(** [annual_income * 0.3]; the slider runs from 50000 to 1000000. *)
Definition affordable_yearly_rent (annual_income : Q) : Q := annual_income * 0.3.

(** [avg_price / affordable_yearly_rent], unguarded in the source;
    [avg_price] is a numpy float64, so a zero divisor gives an infinity or
    NaN and no exception. *)
Definition affordability_ratio
    (avg_price affordable_yearly_rent : Q) : Float.Number :=
  Float.np_div avg_price affordable_yearly_rent.

Inductive Status := Affordable | Unaffordable.

(** Lines 188 and 189 on a finite ratio, over exact numbers. *)
Definition affordability_status (affordability_ratio : Q) : Status :=
  if Qle_bool affordability_ratio 1 then Affordable else Unaffordable.

Definition affordability_score (affordability_ratio : Q) : Z :=
  if Qltb 1 affordability_ratio
  then py_max 0 (py_min 100 (py_int ((1 - (affordability_ratio - 1)) * 100)))
  else 100%Z.

(** The same two lines on any value of the ratio.  NaN compares false with
    everything; [-inf <= 1] holds; for [inf] the score is [int(-inf)], which
    raises [OverflowError]. *)
Definition affordability_status_of (ratio : Float.Number) : Status :=
  match ratio with
  | Float.Finite q => affordability_status q
  | Float.NegInf => Affordable
  | Float.PosInf | Float.NaN => Unaffordable
  end.

Definition affordability_score_of (ratio : Float.Number) : Outcome Z :=
  match ratio with
  | Float.Finite q => Returns (affordability_score q)
  | Float.PosInf => Raises ArithmeticError
  | Float.NegInf | Float.NaN => Returns 100%Z
  end.

(** Lines 187 and 189 with the rounding of every float operation: the
    quotient, the two differences and the product are each rounded before
    [int] truncates.  This is the score that the table shows; it is the
    score over exact numbers or one point beside it (66000 against 60000
    gives 89.99999999999999 and 89, not 90). *)
Definition affordability_ratio_float (avg_price affordable_yearly_rent : Q) : Q :=
  Float.b64 (avg_price / affordable_yearly_rent).

Definition affordability_score_float (affordability_ratio : Q) : Z :=
  if Qltb 1 affordability_ratio
  then py_max 0 (py_min 100 (py_int
         (Float.b64 (Float.b64 (1 - Float.b64 (affordability_ratio - 1)) * 100))))
  else 100%Z.

(** [(nb_data["price_yearly_aed"] <= affordable_yearly_rent).mean() * 100]:
    the mean of a boolean column counts [True] as 1. *)
Definition within_budget (price : list Q) (affordable_yearly_rent : Q) : Q :=
  mean (map (fun p => as_number (Qle_bool p affordable_yearly_rent)) price) * 100.

(** The number of prices at or below the budget. *)
Definition count_within (price : list Q) (budget : Q) : nat :=
  List.length (filter (fun p => Qle_bool p budget) price).

(** One dictionary appended to [affordability_data]. *)
Record Row := {
  row_neighborhood : string;
  row_avg_price : Q;
  row_affordability_ratio : Float.Number;
  row_affordability_status : Status;
  row_affordability_score : Z;
  row_within_budget_pct : Q
}.

Definition affordability_row
    (nb : string) (rows : list Listing) (affordable_yearly_rent : Q) : Outcome Row :=
  let avg_price := mean (prices rows) in
  let ratio := affordability_ratio avg_price affordable_yearly_rent in
  bind (affordability_score_of ratio) (fun score =>
  Returns {| row_neighborhood := nb;
             row_avg_price := avg_price;
             row_affordability_ratio := ratio;
             row_affordability_status := affordability_status_of ratio;
             row_affordability_score := score;
             row_within_budget_pct :=
               within_budget (prices rows) affordable_yearly_rent |}).

(** The loop over [selected_neighborhoods]: a neighbourhood without rows is
    skipped, an exception in one row aborts the loop. *)
Fixpoint affordability_data
    (nbd : list Listing) (affordable_yearly_rent : Q) (selected : list string)
    : Outcome (list Row) :=
  match selected with
  | [] => Returns []
  | nb :: rest =>
      match nb_data nbd nb with
      | [] => affordability_data nbd affordable_yearly_rent rest
      | rows =>
          bind (affordability_row nb rows affordable_yearly_rent) (fun row =>
          bind (affordability_data nbd affordable_yearly_rent rest) (fun more =>
          Returns (row :: more)))
      end
  end.

(** The affordability tab, from the widgets to the rows of the table. *)
Definition show_affordability_index
    (data : list Listing) (selected : list string)
    (selected_property_type selected_bedrooms : string) (annual_income : Q)
    : Outcome (list Row) :=
  let nbd :=
    neighborhood_data
      (filtered_data data selected_property_type selected_bedrooms) selected in
  affordability_data nbd (affordable_yearly_rent annual_income) selected.

End ComparisonTool.

(** ** The specification's wording, for comparison with the code *)

Module Spec.

(** [round]: to the nearest integer, a tie to the even one (Python's
    [round]). *)
Definition round (x : Q) : Z :=
  let f := Qfloor x in
  match ((x - inject_Z f) ?= (1 # 2))%Q with
  | Lt => f
  | Gt => (f + 1)%Z
  | Eq => if Z.even f then f else (f + 1)%Z
  end.

Definition clamp (lo hi v : Z) : Z := Z.max lo (Z.min hi v).

(** [clamp(0, 100, round((1 - (ratio - 1)) * 100))] when [ratio > 1],
    else 100. *)
Definition affordability_score (ratio : Q) : Z :=
  if Qltb 1 ratio then clamp 0 100 (round ((1 - (ratio - 1)) * 100)) else 100%Z.

(** The same with [int] (truncation) in the place of [round]. *)
Definition truncated_score (ratio : Q) : Z :=
  if Qltb 1 ratio then clamp 0 100 (py_int ((1 - (ratio - 1)) * 100)) else 100%Z.



(** [x] shown with two decimals is [d]. *)
Definition shows_as (x d : Q) : Prop := d - 0.005 <= x /\ x < d + 0.005.

(** The worked example of the calculator, with the bounds of the expected
    mortgage left open. *)
Definition example_scenario (lo hi : Q) : Prop :=
  let f := {| AffordabilityCalculator.yearly_income := 200000;
              AffordabilityCalculator.additional_income := 0;
              AffordabilityCalculator.down_payment := 50000;
              AffordabilityCalculator.debt_payments := 2000;
              AffordabilityCalculator.other_expenses := 5000;
              AffordabilityCalculator.rent_income_ratio := 30;
              AffordabilityCalculator.mortgage_interest := 4.0;
              AffordabilityCalculator.mortgage_term := 25 |} in
  let res := AffordabilityCalculator.calculate f in
  shows_as (AffordabilityCalculator.res_monthly_income res) 16666.67
  /\ AffordabilityCalculator.res_affordable_rent res == 5000
  /\ AffordabilityCalculator.res_affordable_yearly_rent res == 60000
  /\ AffordabilityCalculator.res_monthly_payment_capacity res == 3000
  /\ AffordabilityCalculator.monthly_rate f == 0.04 / 12
  /\ AffordabilityCalculator.num_payments f = 300%Z
  /\ lo <= AffordabilityCalculator.res_max_mortgage res <= hi
  /\ AffordabilityCalculator.res_max_purchase_price res
     == AffordabilityCalculator.res_max_mortgage res + 50000.

End Spec.

(** ** Concrete inputs *)

Module Scenarios.

Import AffordabilityCalculator.

(** The default form with an annual income of 50000: the affordable rent,
    1250 a month, is below the 2000 of monthly debt. *)
Definition low_income_form : FormInput := {|
  yearly_income := 50000;
  additional_income := 0;
  down_payment := 50000;
  debt_payments := 2000;
  other_expenses := 5000;
  rent_income_ratio := 30;
  mortgage_interest := 4.0;
  mortgage_term := 25
|}.

Import ComparisonTool.

Definition listing (nb : string) (price : Q) : Listing :=
  {| neighborhood := nb; property_type := "Apartment"; bedrooms := 1;
     price_yearly_aed := price |}.

(** Three listings of one neighbourhood, priced 60000, 70000 and 80000. *)
Definition marina : list Listing :=
  [listing "Marina" 60000; listing "Marina" 70000; listing "Marina" 80000].

(** Two neighbourhoods; the dearer one is selected first. *)
Definition two_neighborhoods : list Listing :=
  [listing "Business Bay" 60000; listing "Dubai Marina" 80000].

Definition dearer_first : list string :=
  selected_neighborhoods "Dubai Marina" "Business Bay" "None" "None".


End Scenarios.

(** ** More of modules/affordability_calculator.py *)

Module Breakdown.

Import AffordabilityCalculator.

(** [max(0, x)]: the first argument unless the second is larger. *)
Definition py_max_0 (x : Q) : Q := if Qltb 0 x then x else 0.

(** [monthly_income - affordable_rent - debt_payments - other_expenses]:
    the last entry of the income table, what is left of the month. *)
Definition remaining_budget (f : FormInput) : Q :=
  monthly_income f - affordable_rent f - debt_payments f - other_expenses f.

(** The four slices of [expense_data]: housing, debt, other expenses and
    savings. *)
Definition expense_data (f : FormInput) : list Q :=
  [affordable_rent f; debt_payments f; other_expenses f;
   py_max_0 (remaining_budget f)].

End Breakdown.

(** ** Reference notions of loan arithmetic *)

Module Finance.

(** The value today of [k] payments of 1, one at the end of each month,
    discounted at the monthly rate [r]: the sum of [(1 + r) ^ (- j)] for
    [j] from 1 to [k]. *)
Fixpoint annuity (r : Q) (k : nat) : Q :=
  match k with
  | O => 0
  | S k' => annuity r k' + (1 + r) ^ (- Z.of_nat k)
  end.

End Finance.

(** ** More of modules/comparison_tool.py *)

Module ComparisonMore.

Import ComparisonTool.

(** [Series.unique()]: the values in the order of their first appearance. *)
Fixpoint unique (l : list string) : list string :=
  match l with
  | [] => []
  | x :: t => x :: filter (fun y => negb (String.eqb x y)) (unique t)
  end.

(** The selected neighbourhoods that the warning lists: those not among
    [neighborhood_data["neighborhood"].unique()]. *)
Definition missing_neighborhoods
    (nbd : list Listing) (selected : list string) : list string :=
  filter (fun n => negb (existsb (String.eqb n) (unique (map neighborhood nbd))))
         selected.

(** The bedroom choices of the select box, without ["All"]. *)
Definition bedroom_options : list string :=
  ["Studio"; "1 BR"; "2 BR"; "3+ BR"]%string.

(** Sorting in ascending order, as the median needs it. *)
Fixpoint insert (x : Q) (l : list Q) : list Q :=
  match l with
  | [] => [x]
  | y :: t => if Qle_bool x y then x :: l else y :: insert x t
  end.

Fixpoint sort (l : list Q) : list Q :=
  match l with
  | [] => []
  | x :: t => insert x (sort t)
  end.

(** The aggregations ["median"], ["min"] and ["max"] of a group; a group of
    [groupby] is never empty. *)
Definition median (l : list Q) : Q :=
  let s := sort l in
  let n := List.length l in
  if Nat.even n
  then (nth (n / 2 - 1) s 0 + nth (n / 2) s 0) / 2
  else nth (n / 2) s 0.

Definition minimum (l : list Q) : Q :=
  match l with
  | [] => 0
  | x :: t => fold_left (fun m y => if Qltb y m then y else m) t x
  end.

Definition maximum (l : list Q) : Q :=
  match l with
  | [] => 0
  | x :: t => fold_left (fun m y => if Qltb m y then y else m) t x
  end.

(** One line of [price_comparison]: the yearly price of a group
    aggregated by mean, median, min, max and count. *)
Record PriceStats := {
  price_mean : Q;
  price_median : Q;
  price_min : Q;
  price_max : Q;
  price_count : nat
}.

Definition price_comparison (rows : list Listing) : PriceStats :=
  {| price_mean := mean (prices rows);
     price_median := median (prices rows);
     price_min := minimum (prices rows);
     price_max := maximum (prices rows);
     price_count := List.length rows |}.

(** The table shows every price as [int(x)]. *)
Definition price_comparison_display (s : PriceStats) : list Z :=
  [py_int (price_mean s); py_int (price_median s);
   py_int (price_min s); py_int (price_max s)].

(** [5 - min(5, commute_time / 10)] of the radar chart. *)
Definition commute_normalized (commute_time : Q) : Q :=
  let x := commute_time / 10 in
  5 - (if Qltb x 5 then x else 5).

End ComparisonMore.

(** ** utils/data_loader.py: one generated record *)

Module DataLoader.

(** A dictionary as the list of its assignments, the latest first. *)
Definition dict_set {V} (d : list (string * V)) (k : string) (v : V)
    : list (string * V) := (k, v) :: d.

Fixpoint dict_get {V} (d : list (string * V)) (k : string) (default : V) : V :=
  match d with
  | [] => default
  | (k', v) :: t => if String.eqb k' k then v else dict_get t k default
  end.

Definition areas : list (string * list string) :=
  [("Downtown", ["Downtown Dubai"; "Business Bay"; "DIFC"]);
   ("Marina Area", ["Dubai Marina"; "JBR"; "JLT"]);
   ("Palm Jumeirah", ["Palm Jumeirah"]);
   ("New Dubai", ["Dubai Hills Estate"; "Arabian Ranches"; "Emirates Hills"]);
   ("Academic City", ["Dubai Silicon Oasis"; "Academic City"; "International City"]);
   ("Sports City", ["Sports City"; "Motor City"; "JVC"]);
   ("Old Dubai", ["Deira"; "Bur Dubai"; "Al Karama"])]%string.

(** The loop that reverses [areas] into neighbourhood -> area. *)
Definition neighborhood_to_area : list (string * string) :=
  fold_left
    (fun d '(area, nbs) => fold_left (fun d nb => dict_set d nb area) nbs d)
    areas [].

Definition property_types : list string :=
  ["Apartment"; "Villa"; "Townhouse"; "Penthouse"; "Studio"]%string.

Definition area_price_factors : list (string * Q) :=
  [("Downtown", 1.5); ("Marina Area", 1.3); ("Palm Jumeirah", 1.8);
   ("New Dubai", 1.1); ("Academic City", 0.7); ("Sports City", 0.8);
   ("Old Dubai", 0.9)]%string.

Definition property_type_factors : list (string * Q) :=
  [("Apartment", 1.0); ("Villa", 1.3); ("Townhouse", 1.2);
   ("Penthouse", 1.5); ("Studio", 0.9)]%string.

Definition base_price_per_sqft : Q := 90.

(** The lists that [random.choices] draws the bedrooms from; a studio
    draws nothing and has 0 bedrooms. *)
Definition bedroom_choices (property_type : string) : list Z :=
  if String.eqb property_type "Apartment" then [1; 2; 3; 4]%Z
  else if String.eqb property_type "Penthouse" then [2; 3; 4; 5]%Z
  else [2; 3; 4; 5; 6]%Z.

Definition bedrooms (property_type : string) (drawn : Z) : Z :=
  if String.eqb property_type "Studio" then 0%Z else drawn.

(** [max(1, min(bedrooms, choice))], the choice being one of
    [bedrooms - 1], [bedrooms] and [bedrooms + 1]. *)
Definition bathroom_choices (bedrooms : Z) : list Z :=
  [bedrooms - 1; bedrooms; bedrooms + 1]%Z.

Definition bathrooms (bedrooms choice : Z) : Z :=
  py_max 1 (py_min bedrooms choice).

(** The bounds of the [random.randint] that sizes the property, and the
    size from the drawn number. *)
Definition size_draw_bounds (property_type : string) : Z * Z :=
  if String.eqb property_type "Studio" then (300, 600)%Z
  else if String.eqb property_type "Apartment" then (200, 400)%Z
  else if String.eqb property_type "Penthouse" then (400, 700)%Z
  else (500, 800)%Z.

Definition size_sqft (property_type : string) (bedrooms drawn : Z) : Z :=
  if String.eqb property_type "Studio" then drawn
  else if String.eqb property_type "Apartment" then (600 + bedrooms * drawn)%Z
  else if String.eqb property_type "Penthouse" then (1500 + bedrooms * drawn)%Z
  else (1200 + bedrooms * drawn)%Z.

(** The yearly price per square foot, [uniform] being the draw of
    [random.uniform(0.9, 1.1)]. *)
Definition price_per_sqft (area property_type : string) (uniform : Q) : Q :=
  let price_factor :=
    dict_get area_price_factors area 1.0
    * dict_get property_type_factors property_type 1.0 in
  base_price_per_sqft * price_factor * uniform.

Definition price_yearly_aed (size_sqft : Z) (price_per_sqft : Q) : Z :=
  py_int (inject_Z size_sqft * price_per_sqft).

(** [round(x, -2)]: to the nearest hundred, a tie to the even hundred. *)
Definition round_hundreds (x : Q) : Q := inject_Z (Spec.round (x / 100)) * 100.

Definition price_monthly_aed (price_yearly_aed : Z) : Z :=
  py_int (round_hundreds (inject_Z price_yearly_aed / 12)).

(** What one turn of the loop draws at random. *)
Record Draws := {
  draw_neighborhood : string;
  draw_property_type : string;
  draw_bedrooms : Z;
  draw_bathrooms : Z;
  draw_size : Z;
  draw_uniform : Q
}.

(** The draws that the calls of [random] can return; for a studio no
    number of bedrooms is drawn. *)
Definition possible (d : Draws) : Prop :=
  In (draw_property_type d) property_types
  /\ (draw_property_type d <> "Studio"%string ->
      In (draw_bedrooms d) (bedroom_choices (draw_property_type d)))
  /\ In (draw_bathrooms d)
        (bathroom_choices (bedrooms (draw_property_type d) (draw_bedrooms d)))
  /\ (fst (size_draw_bounds (draw_property_type d)) <= draw_size d
      <= snd (size_draw_bounds (draw_property_type d)))%Z
  /\ 0.9 <= draw_uniform d <= 1.1.

(** The columns of one record that depend on the draws. *)
Record Generated := {
  gen_neighborhood : string;
  gen_area : string;
  gen_property_type : string;
  gen_bedrooms : Z;
  gen_bathrooms : Z;
  gen_size_sqft : Z;
  gen_price_yearly_aed : Z;
  gen_price_monthly_aed : Z
}.

Definition generate (d : Draws) : Generated :=
  let area := dict_get neighborhood_to_area (draw_neighborhood d) "Other"%string in
  let property_type := draw_property_type d in
  let bedrooms := bedrooms property_type (draw_bedrooms d) in
  let size := size_sqft property_type bedrooms (draw_size d) in
  let yearly :=
    price_yearly_aed size (price_per_sqft area property_type (draw_uniform d)) in
  {| gen_neighborhood := draw_neighborhood d;
     gen_area := area;
     gen_property_type := property_type;
     gen_bedrooms := bedrooms;
     gen_bathrooms := bathrooms bedrooms (draw_bathrooms d);
     gen_size_sqft := size;
     gen_price_yearly_aed := yearly;
     gen_price_monthly_aed := price_monthly_aed yearly |}.

End DataLoader.

(** ** modules/map_visualization.py *)

Module MapVisualization.

Import ComparisonTool ComparisonMore.

(** [min(10 + property_count * 0.5, 30)]: the radius of a marker. *)
Definition radius (property_count : Z) : Q :=
  let grown := 10 + inject_Z property_count * 0.5 in
  if Qltb 30 grown then 30 else grown.

(** *** Most Affordable Neighborhoods, lines 136 to 147 *)

(** One row of [groupby("neighborhood").agg(...)]: the key, the mean of
    [price_yearly_aed] and the count. *)
Record Group := {
  group_neighborhood : string;
  group_price_yearly_aed : Q;
  group_count : nat
}.

(** [groupby] sorts the group keys: the distinct names in ascending order. *)
Fixpoint insert_key (key : string) (keys : list string) : list string :=
  match keys with
  | [] => [key]
  | k :: rest =>
      if String.leb key k then key :: keys else k :: insert_key key rest
  end.

Definition group_keys (filtered_data : list Listing) : list string :=
  fold_right insert_key [] (unique (map neighborhood filtered_data)).

Definition grouped (filtered_data : list Listing) : list Group :=
  map (fun key =>
         let rows := nb_data filtered_data key in
         {| group_neighborhood := key;
            group_price_yearly_aed := mean (prices rows);
            group_count := List.length rows |})
      (group_keys filtered_data).



(** [.sort_values("price_yearly_aed").reset_index().head(5)] *)
Definition affordable_neighborhoods
    (sort_values : list Group -> list Group) (filtered_data : list Listing)
    : list Group :=
  firstn 5 (sort_values (grouped filtered_data)).




(** Two sorts within the contract.  The first is stable: a row goes in
    front of the rows that are not cheaper, so rows of one price keep the
    order of the frame.  The second is not: a row goes behind the rows of
    the same price. *)
Fixpoint insert_stable (g : Group) (l : list Group) : list Group :=
  match l with
  | [] => [g]
  | h :: t =>
      if Qle_bool (group_price_yearly_aed g) (group_price_yearly_aed h)
      then g :: l else h :: insert_stable g t
  end.

Definition sort_stable (frame : list Group) : list Group :=
  fold_right insert_stable [] frame.



End MapVisualization.

(** ** modules/trend_analysis.py *)

Module TrendAnalysis.

(** [(today.month - 1) // 3 + 1]. *)
Definition current_quarter (month : Z) : Z := ((month - 1) / 3 + 1)%Z.

(** One turn of the loop over [range(8)]: the year and the quarter of the
    label [f"{y}Q{q}"]. *)
Definition quarter_back (current_year current_quarter i : Z) : Z * Z :=
  let q := (current_quarter - i mod 4)%Z in
  let y := (current_year - i / 4)%Z in
  if (q <=? 0)%Z then ((y - 1)%Z, (q + 4)%Z) else (y, q).

(** The eight labels after [quarters.reverse()]. *)
Definition quarters (current_year current_quarter : Z) : list (Z * Z) :=
  rev (map (quarter_back current_year current_quarter) (range 8)).

(** The position of a quarter on the time line. *)
Definition quarter_index (yq : Z * Z) : Z := (4 * fst yq + snd yq)%Z.

End TrendAnalysis.

(** ** More concrete inputs *)

Module Samples.

(** A two-bedroom apartment of Dubai Marina as the loader may draw it. *)
Definition marina_apartment : DataLoader.Draws := {|
  DataLoader.draw_neighborhood := "Dubai Marina";
  DataLoader.draw_property_type := "Apartment";
  DataLoader.draw_bedrooms := 2;
  DataLoader.draw_bathrooms := 2;
  DataLoader.draw_size := 300;
  DataLoader.draw_uniform := 1.0
|}.

End Samples.

(** * Properties *)

(** ** The Python primitives *)

Section PyFacts.

Lemma Qltb_lt (a b : Q) : Qltb a b = true <-> a < b.
Proof.
  unfold Qltb. rewrite Qlt_alt. destruct (a ?= b); split; congruence.
Qed.

Lemma Qltb_ge (a b : Q) : Qltb a b = false <-> b <= a.
Proof.
  split; intro H.
  - apply Qnot_lt_le. intro L. apply Qltb_lt in L. congruence.
  - destruct (Qltb a b) eqn:E; [|reflexivity].
    apply Qltb_lt in E. exfalso. exact (Qlt_not_le _ _ E H).
Qed.

Lemma py_div_returns (a b : Q) : ~ b == 0 -> py_div a b = Returns (a / b).
Proof.
  intro H. unfold py_div. destruct (Qeq_bool b 0) eqn:E; [|reflexivity].
  apply Qeq_bool_iff in E. contradiction.
Qed.

Lemma py_div_raises (a b : Q) : b == 0 -> py_div a b = Raises ArithmeticError.
Proof.
  intro H. unfold py_div. apply Qeq_bool_iff in H. now rewrite H.
Qed.

(** [int] is the floor of a non-negative number and the ceiling of a
    non-positive one. *)
Lemma py_int_floor (x : Q) : 0 <= x -> py_int x = Qfloor x.
Proof.
  destruct x as [p d]. unfold Qle, py_int, Qfloor. simpl. intro H.
  apply Z.quot_div_nonneg; lia.
Qed.

Lemma py_int_ceiling (x : Q) : x <= 0 -> py_int x = Qceiling x.
Proof.
  destruct x as [p d]. unfold Qle, py_int, Qceiling, Qfloor. simpl. intro H.
  replace p with (- (- p))%Z at 1 by lia.
  rewrite Z.quot_opp_l by lia. f_equal.
  apply Z.quot_div_nonneg; lia.
Qed.

Lemma py_int_mono (x y : Q) : x <= y -> (py_int x <= py_int y)%Z.
Proof.
  intro H.
  destruct (Qlt_le_dec x 0) as [Hx|Hx]; destruct (Qlt_le_dec y 0) as [Hy|Hy].
  - rewrite !py_int_ceiling by (apply Qlt_le_weak; assumption).
    now apply Qceiling_resp_le.
  - rewrite (py_int_ceiling x) by (apply Qlt_le_weak; assumption).
    rewrite (py_int_floor y) by assumption.
    apply Z.le_trans with 0%Z.
    + change 0%Z with (Qceiling 0). apply Qceiling_resp_le.
      apply Qlt_le_weak; assumption.
    + change 0%Z with (Qfloor 0). now apply Qfloor_resp_le.
  - exfalso. apply (Qlt_irrefl 0).
    apply Qle_lt_trans with x; [assumption|].
    apply Qle_lt_trans with y; assumption.
  - rewrite !py_int_floor by assumption. now apply Qfloor_resp_le.
Qed.

Lemma py_max_min_clamp (v : Z) : py_max 0 (py_min 100 v) = Spec.clamp 0 100 v.
Proof.
  unfold py_max, py_min, Spec.clamp.
  destruct (v <? 100)%Z eqn:E1; [apply Z.ltb_lt in E1 | apply Z.ltb_ge in E1];
    [destruct (0 <? v)%Z eqn:E2; [apply Z.ltb_lt in E2 | apply Z.ltb_ge in E2] |];
    simpl; lia.
Qed.

End PyFacts.

(** ** The rounding of floats *)

Module FloatFacts.

Import Float.

Lemma two_power_pos (z : Z) : 0 < 2 ^ z.
Proof. apply Qpower_0_lt. reflexivity. Qed.

Lemma two_power_le (a b : Z) : (a <= b)%Z -> 2 ^ a <= 2 ^ b.
Proof. intro H. apply Qpower_le_compat_l; [assumption | discriminate]. Qed.

Lemma two_power_succ (a : Z) : 2 ^ (a + 1) == 2 ^ a * 2.
Proof. rewrite Qpower_plus by discriminate. reflexivity. Qed.

Lemma two_power_Z (a : Z) : (0 <= a)%Z -> inject_Z (2 ^ a) == 2 ^ a.
Proof. intro H. now rewrite Zpower_Qpower. Qed.

(** A positive rational lies strictly between two powers of two read off
    the sizes of its numerator and denominator. *)
Lemma log2_bracket (x : Q) :
  0 < x ->
  let k := (Z.log2 (Qnum x) - Z.log2 (Zpos (Qden x)))%Z in
  2 ^ (k - 1) < x < 2 ^ (k + 1).
Proof.
  intros H k. destruct x as [n d].
  assert (Hn : (0 < n)%Z) by (unfold Qlt in H; simpl in H; lia).
  simpl Qnum in k. simpl Qden in k.
  pose proof (Z.log2_spec n Hn) as [Hn1 Hn2].
  pose proof (Z.log2_spec (Zpos d) (Pos2Z.is_pos d)) as [Hd1 Hd2].
  pose proof (Z.log2_nonneg n) as Ha. pose proof (Z.log2_nonneg (Zpos d)) as Hb.
  set (a := Z.log2 n) in *. set (b := Z.log2 (Zpos d)) in *.
  assert (Hx : n # d == inject_Z n / inject_Z (Zpos d)) by apply Qmake_Qdiv.
  assert (Hdq : 0 < inject_Z (Zpos d)) by reflexivity.
  rewrite Zle_Qle, two_power_Z in Hn1, Hd1 by assumption.
  rewrite Zlt_Qlt in Hn2, Hd2.
  rewrite two_power_Z in Hn2, Hd2 by lia.
  replace (Z.succ a) with (a + 1)%Z in Hn2 by lia.
  replace (Z.succ b) with (b + 1)%Z in Hd2 by lia.
  rewrite two_power_succ in Hn2, Hd2.
  assert (Hk1 : 2 ^ (k - 1) == 2 ^ a / (2 ^ b * 2)).
  { unfold k. replace (a - b - 1)%Z with (a - (b + 1))%Z by lia.
    rewrite Qpower_minus by discriminate. now rewrite two_power_succ. }
  assert (Hk2 : 2 ^ (k + 1) == 2 ^ a * 2 / 2 ^ b).
  { unfold k. replace (a - b + 1)%Z with (a + 1 - b)%Z by lia.
    rewrite Qpower_minus by discriminate. now rewrite two_power_succ. }
  pose proof (two_power_pos a) as Pa. pose proof (two_power_pos b) as Pb.
  rewrite Hx, Hk1, Hk2.
  set (N := inject_Z n) in *. set (D := inject_Z (Zpos d)) in *.
  set (A := 2 ^ a) in *. set (B := 2 ^ b) in *.
  clearbody N D A B. split.
  - apply Qlt_shift_div_l; [assumption|].
    assert (E : A / (B * 2) * D == A * (D / (B * 2))) by (field; lra).
    rewrite E.
    assert (D / (B * 2) < 1) by (apply Qlt_shift_div_r; lra).
    nra.
  - apply Qlt_shift_div_r; [assumption|].
    assert (E : A * 2 / B * D == A * 2 * (D / B)) by (field; lra).
    rewrite E.
    assert (1 <= D / B) by (apply Qle_shift_div_l; lra).
    nra.
Qed.

Lemma mag_spec (x : Q) : 0 < x -> 2 ^ (mag x - 1) <= x < 2 ^ mag x.
Proof.
  intro H. pose proof (log2_bracket x H) as [H1 H2]. unfold mag.
  set (k := (Z.log2 (Qnum x) - Z.log2 (Zpos (Qden x)))%Z) in *.
  destruct (Qltb x (2 ^ k)) eqn:E; [apply Qltb_lt in E | apply Qltb_ge in E].
  - split; [lra | assumption].
  - replace (k + 1 - 1)%Z with k by lia. split; assumption.
Qed.

Lemma mag_mono (x y : Q) : 0 < x -> x <= y -> (mag x <= mag y)%Z.
Proof.
  intros Hx Hxy.
  destruct (mag_spec x Hx) as [X1 _].
  destruct (mag_spec y) as [_ Y2]; [lra|].
  destruct (Z_le_gt_dec (mag x) (mag y)) as [|Hgt]; [assumption|]. exfalso.
  assert (H : 2 ^ mag y <= 2 ^ (mag x - 1)) by (apply two_power_le; lia).
  lra.
Qed.

Lemma nearest_even_cases (x : Q) :
  nearest_even x = Qfloor x \/ nearest_even x = (Qfloor x + 1)%Z.
Proof.
  unfold nearest_even.
  destruct (x - inject_Z (Qfloor x) ?= 1 # 2); [destruct (Z.even _)| |]; auto.
Qed.

Lemma nearest_even_mono (x y : Q) :
  x <= y -> (nearest_even x <= nearest_even y)%Z.
Proof.
  intro H. pose proof (Qfloor_resp_le x y H) as Hf.
  destruct (Z.eq_dec (Qfloor x) (Qfloor y)) as [E|N].
  - unfold nearest_even. rewrite <- E. set (f := Qfloor x) in *.
    destruct (x - inject_Z f ?= 1 # 2) eqn:Cx;
      destruct (y - inject_Z f ?= 1 # 2) eqn:Cy;
      try (destruct (Z.even f)); try lia; exfalso;
      repeat match goal with
             | C : (_ ?= _) = Eq |- _ => apply Qeq_alt in C
             | C : (_ ?= _) = Lt |- _ => apply Qlt_alt in C
             | C : (_ ?= _) = Gt |- _ => apply Qgt_alt in C
             end; lra.
  - destruct (nearest_even_cases x) as [-> | ->];
      destruct (nearest_even_cases y) as [-> | ->]; lia.
Qed.

Lemma nearest_even_Z (z : Z) : nearest_even (inject_Z z) = z.
Proof.
  unfold nearest_even. rewrite Qfloor_Z.
  assert (E : (inject_Z z - inject_Z z ?= 1 # 2) = Lt).
  { apply Qlt_alt. ring_simplify (inject_Z z - inject_Z z). reflexivity. }
  now rewrite E.
Qed.

(** The significand of a positive number has 53 bits. *)
Lemma significand_range (x : Q) :
  0 < x ->
  let e := (mag x - 53)%Z in
  inject_Z (2 ^ 52) <= inject_Z (nearest_even (x / 2 ^ e)) <= inject_Z (2 ^ 53).
Proof.
  intros H e. destruct (mag_spec x H) as [H1 H2].
  pose proof (two_power_pos e) as Pe.
  assert (E1 : 2 ^ (mag x - 1) == 2 ^ 52 * 2 ^ e).
  { unfold e. rewrite <- Qpower_plus by discriminate. f_equiv. lia. }
  assert (E2 : 2 ^ mag x == 2 ^ 53 * 2 ^ e).
  { unfold e. rewrite <- Qpower_plus by discriminate. f_equiv. lia. }
  assert (L : inject_Z (2 ^ 52) <= x / 2 ^ e).
  { apply Qle_shift_div_l; [assumption|]. rewrite two_power_Z by lia. lra. }
  assert (U : x / 2 ^ e <= inject_Z (2 ^ 53)).
  { apply Qle_shift_div_r; [assumption|]. rewrite two_power_Z by lia. lra. }
  apply nearest_even_mono in L. apply nearest_even_mono in U.
  rewrite nearest_even_Z in L, U. rewrite <- !Zle_Qle. split; assumption.
Qed.

Lemma b64_pos_pos (x : Q) : 0 < x -> 0 < b64_pos x.
Proof.
  intro H. unfold b64_pos. destruct (significand_range x H) as [L _].
  apply Qmult_lt_0_compat; [|apply two_power_pos].
  apply Qlt_le_trans with (inject_Z (2 ^ 52)); [reflexivity | assumption].
Qed.

Lemma b64_pos_mono (x y : Q) : 0 < x -> x <= y -> b64_pos x <= b64_pos y.
Proof.
  intros Hx Hxy. assert (Hy : 0 < y) by lra.
  pose proof (mag_mono x y Hx Hxy) as Hm.
  destruct (significand_range x Hx) as [_ Ux].
  destruct (significand_range y Hy) as [Ly _].
  unfold b64_pos.
  destruct (Z.eq_dec (mag x) (mag y)) as [E|N].
  - rewrite <- E. apply Qmult_le_compat_r; [|apply Qlt_le_weak, two_power_pos].
    rewrite <- Zle_Qle. apply nearest_even_mono.
    apply Qmult_le_compat_r; [assumption|].
    apply Qlt_le_weak, Qinv_lt_0_compat, two_power_pos.
  - apply Qle_trans with (inject_Z (2 ^ 53) * 2 ^ (mag x - 53)).
    + apply Qmult_le_compat_r; [assumption | apply Qlt_le_weak, two_power_pos].
    + apply Qle_trans with (inject_Z (2 ^ 52) * 2 ^ (mag y - 53)).
      * rewrite !two_power_Z by lia. rewrite <- !Qpower_plus by discriminate.
        apply two_power_le. lia.
      * apply Qmult_le_compat_r; [assumption | apply Qlt_le_weak, two_power_pos].
Qed.

(** Rounding to a float keeps the order. *)
Lemma b64_mono (x y : Q) : x <= y -> b64 x <= b64 y.
Proof.
  intro H. unfold b64.
  destruct (Qcompare_spec x 0) as [Ex|Lx|Gx];
    destruct (Qcompare_spec y 0) as [Ey|Ly|Gy]; try lra.
  - pose proof (b64_pos_pos y Gy). lra.
  - assert (0 < b64_pos (- x)) by (apply b64_pos_pos; lra). lra.
  - assert (b64_pos (- y) <= b64_pos (- x)) by (apply b64_pos_mono; lra). lra.
  - assert (0 < b64_pos (- x)) by (apply b64_pos_pos; lra).
    pose proof (b64_pos_pos y Gy). lra.
  - now apply b64_pos_mono.
Qed.

Lemma b64_compat (x y : Q) : x == y -> b64 x == b64 y.
Proof.
  intro H. apply Qle_antisym; apply b64_mono; rewrite H; apply Qle_refl.
Qed.

(** *** The error of one rounding *)

Lemma nearest_even_near (x : Q) :
  - (1 # 2) <= inject_Z (nearest_even x) - x <= 1 # 2.
Proof.
  pose proof (Qfloor_le x) as Hlo. pose proof (Qlt_floor x) as Hhi.
  rewrite inject_Z_plus in Hhi. change (inject_Z 1) with 1 in Hhi.
  unfold nearest_even.
  destruct (x - inject_Z (Qfloor x) ?= 1 # 2) eqn:E.
  - apply Qeq_alt in E.
    destruct (Z.even (Qfloor x));
      [|rewrite inject_Z_plus; change (inject_Z 1) with 1]; lra.
  - apply Qlt_alt in E. lra.
  - apply Qgt_alt in E. rewrite inject_Z_plus. change (inject_Z 1) with 1. lra.
Qed.

Lemma b64_pos_near (x : Q) :
  0 < x -> - (x * eps) <= b64_pos x - x <= x * eps.
Proof.
  intro Hx. unfold b64_pos.
  set (e := (mag x - 53)%Z).
  pose proof (nearest_even_near (x / 2 ^ e)) as Hn.
  set (n := inject_Z (nearest_even (x / 2 ^ e))) in *. clearbody n.
  pose proof (two_power_pos e) as He.
  destruct (mag_spec x Hx) as [Hm _].
  assert (E : 2 ^ e == 2 ^ (mag x - 1) * (1 # 4503599627370496)).
  { unfold e. replace (mag x - 53)%Z with ((mag x - 1) + (-52))%Z by lia.
    rewrite Qpower_plus by discriminate. reflexivity. }
  assert (Hy : x / 2 ^ e * 2 ^ e == x) by (field; lra).
  set (y := x / 2 ^ e) in *. clearbody y.
  set (p := 2 ^ e) in *. clearbody p.
  set (m := 2 ^ (mag x - 1)) in *. clearbody m.
  unfold eps. nra.
Qed.

Lemma b64_near (x bound : Q) :
  - bound <= x <= bound ->
  - (bound * eps) <= b64 x - x <= bound * eps.
Proof.
  intros [Hlo Hhi]. unfold b64.
  assert (He : 0 < eps) by reflexivity.
  destruct (x ?= 0) eqn:E.
  - apply Qeq_alt in E. nra.
  - apply Qlt_alt in E.
    assert (Hx : 0 < - x) by lra.
    pose proof (b64_pos_near (- x) Hx). nra.
  - apply Qgt_alt in E.
    pose proof (b64_pos_near x E). nra.
Qed.

Lemma b64_exact (x : Q) : Qeq_bool (b64 x) x = true -> b64 x == x.
Proof. apply Qeq_bool_iff. Qed.

End FloatFacts.

(** ** The affordability calculator *)

Module CalculatorFacts.

Import AffordabilityCalculator.

(** [(1 + r) ^ n] exceeds 1 for a positive rate and a positive term. *)
Lemma compound_gt_1 (r : Q) (n : Z) : 0 < r -> (0 < n)%Z -> 1 < (1 + r) ^ n.
Proof.
  intros Hr Hn. apply Qpower_1_lt; [|assumption].
  setoid_replace 1 with (1 + 0) at 1 by ring.
  rewrite Qplus_lt_r. apply Hr.
Qed.

(** The present-value factor [(1 - (1 + r) ^ (- n)) / r] is positive. *)
Lemma pv_factor_pos (r : Q) (n : Z) :
  0 < r -> (0 < n)%Z -> 0 < (1 - (1 + r) ^ (- n)) / r.
Proof.
  intros Hr Hn. pose proof (compound_gt_1 r n Hr Hn) as Hq.
  apply Qlt_shift_div_l; [assumption|].
  rewrite Qpower_opp. rewrite Qmult_0_l.
  assert (Hq0 : 0 < (1 + r) ^ n) by (apply Qlt_trans with 1; [reflexivity|assumption]).
  assert (Hinv : / (1 + r) ^ n < 1).
  { apply Qlt_shift_inv_r; [assumption|]. now rewrite Qmult_1_l. }
  lra.
Qed.

(** C1.  Round trip: for a monthly rate [r > 0], a term of [n > 0] months
    and a payment capacity [c >= 0], the amortised monthly payment of the
    maximum mortgage that [c] can service is computed without a fault and
    equals [c] (in exact arithmetic). *)
Theorem max_mortgage_round_trip (c r : Q) (n : Z) :
  0 < r -> (0 < n)%Z -> 0 <= c ->
  exists p, monthly_mortgage (max_mortgage c r n) r n = Returns p /\ p == c.
Proof.
  intros Hr Hn _. pose proof (compound_gt_1 r n Hr Hn) as Hq.
  assert (Hb : Qltb 0 r = true) by now apply Qltb_lt.
  unfold monthly_mortgage, max_mortgage. rewrite Hb.
  assert (Hd : ~ (1 + r) ^ n - 1 == 0) by lra.
  rewrite py_div_returns by assumption.
  eexists. split; [reflexivity|].
  rewrite Qpower_opp.
  set (q := (1 + r) ^ n) in *.
  field. repeat split; lra.
Qed.

Lemma max_mortgage_round_trip_witness :
  exists p, monthly_mortgage (max_mortgage 3000 (1 # 300) 300) (1 # 300) 300 = Returns p
            /\ p == 3000.
Proof.
  apply (max_mortgage_round_trip 3000 (1 # 300) 300); [reflexivity | reflexivity | discriminate].
Defined.

(** A rate that is not positive takes the [else] branch. *)
Lemma max_mortgage_else (c r : Q) (n : Z) :
  r <= 0 -> max_mortgage c r n = c * inject_Z n.
Proof.
  intro Hr. unfold max_mortgage. apply Qltb_ge in Hr. now rewrite Hr.
Qed.

(** C9.  With a monthly rate of zero the maximum mortgage is the capacity
    times the number of months. *)
Theorem max_mortgage_zero_rate (c r : Q) (n : Z) :
  r == 0 -> max_mortgage c r n == c * inject_Z n.
Proof.
  intro Hr. rewrite max_mortgage_else; [reflexivity|].
  rewrite Hr. apply Qle_refl.
Qed.

Lemma max_mortgage_zero_rate_witness :
  max_mortgage 3000 0 300 == 3000 * inject_Z 300.
Proof.
  apply (max_mortgage_zero_rate 3000 0 300). reflexivity.
Defined.

(** The same on a form whose interest slider could be set to zero. *)
Lemma calculate_zero_interest (f : FormInput) :
  mortgage_interest f == 0 ->
  res_max_mortgage (calculate f)
  == monthly_payment_capacity f * inject_Z (mortgage_term f * 12).
Proof.
  intro H. simpl. rewrite max_mortgage_else; [reflexivity|].
  unfold monthly_rate. rewrite H. discriminate.
Qed.

(** The maximum mortgage is the capacity times a positive factor that the
    capacity does not enter. *)
Lemma max_mortgage_factor (r : Q) (n : Z) :
  (0 < n)%Z -> exists k, 0 < k /\ forall c, max_mortgage c r n == c * k.
Proof.
  intro Hn. unfold max_mortgage. destruct (Qltb 0 r) eqn:E.
  - apply Qltb_lt in E. exists ((1 - (1 + r) ^ (- n)) / r). split.
    + now apply pv_factor_pos.
    + reflexivity.
  - exists (inject_Z n). split.
    + change 0 with (inject_Z 0). rewrite <- Zlt_Qlt. assumption.
    + reflexivity.
Qed.

(** C3, the counterexample.  With an annual income of 50000 the payment
    capacity is negative and the calculator returns a mortgage that is not
    zero. *)
Lemma negative_capacity_mortgage_not_zero :
  monthly_payment_capacity Scenarios.low_income_form <= 0
  /\ ~ res_max_mortgage (calculate Scenarios.low_income_form) == 0.
Proof.
  split.
  - apply Qle_bool_iff. vm_compute. reflexivity.
  - intro H. apply Qeq_bool_iff in H. vm_compute in H. discriminate.
Qed.

(** C3, as amended.  For a form with a positive term whose payment
    capacity is at most zero, the calculator applies the same formula as for
    any other form: the maximum mortgage is at most zero, it is zero exactly
    when the capacity is zero and negative when the capacity is negative,
    and the purchase price is the mortgage plus the down payment. *)
Theorem nonpositive_capacity_mortgage (f : FormInput) :
  (0 < mortgage_term f)%Z ->
  monthly_payment_capacity f <= 0 ->
  res_max_mortgage (calculate f) <= 0
  /\ (res_max_mortgage (calculate f) == 0 <-> monthly_payment_capacity f == 0)
  /\ (monthly_payment_capacity f < 0 -> res_max_mortgage (calculate f) < 0)
  /\ res_max_purchase_price (calculate f)
     == res_max_mortgage (calculate f) + down_payment f.
Proof.
  intros Ht Hc. simpl.
  destruct (max_mortgage_factor (monthly_rate f) (num_payments f)) as [k [Hk Hm]].
  { unfold num_payments. lia. }
  rewrite Hm. set (c := monthly_payment_capacity f) in *.
  repeat split.
  - nra.
  - intro H. nra.
  - intro H. rewrite H. ring.
  - intro H. nra.
Qed.

Lemma nonpositive_capacity_mortgage_witness :
  res_max_mortgage (calculate Scenarios.low_income_form) <= 0
  /\ (res_max_mortgage (calculate Scenarios.low_income_form) == 0
      <-> monthly_payment_capacity Scenarios.low_income_form == 0)
  /\ (monthly_payment_capacity Scenarios.low_income_form < 0
      -> res_max_mortgage (calculate Scenarios.low_income_form) < 0)
  /\ res_max_purchase_price (calculate Scenarios.low_income_form)
     == res_max_mortgage (calculate Scenarios.low_income_form)
        + down_payment Scenarios.low_income_form.
Proof.
  apply (nonpositive_capacity_mortgage Scenarios.low_income_form).
  - reflexivity.
  - apply Qle_bool_iff. vm_compute. reflexivity.
Defined.

(** *** The worked example *)

Ltac decide_Q :=
  match goal with
  | |- _ <= _ => apply Qle_bool_iff; vm_compute; reflexivity
  | |- _ < _ => apply Qltb_lt; vm_compute; reflexivity
  | |- _ == _ => apply Qeq_bool_iff; vm_compute; reflexivity
  | |- @eq Z _ _ => vm_compute; reflexivity
  end.

(** C2, the counterexample.  On the example input the maximum mortgage is
    below 569000, so the example does not hold with the range 569000 to
    575000. *)
Lemma example_scenario_range_fails : ~ Spec.example_scenario 569000 575000.
Proof.
  unfold Spec.example_scenario.
  intros (_ & _ & _ & _ & _ & _ & [Hlo _] & _).
  apply Qle_bool_iff in Hlo. vm_compute in Hlo. discriminate.
Qed.

(** C2, as amended.  On the example input the calculator gives a monthly
    income shown as 16666.67, an affordable rent of 5000 a month and 60000 a
    year, a payment capacity of 3000, with [r = 0.04 / 12] and [n = 300] a
    maximum mortgage between 568357 and 568358, and a purchase price of
    the mortgage plus 50000. *)
Theorem example_scenario_holds : Spec.example_scenario 568357 568358.
Proof.
  unfold Spec.example_scenario, Spec.shows_as.
  repeat split; decide_Q.
Qed.

(** *** Rent versus buy *)

(** C10.  For a positive term the monthly payment is computed without a
    fault, and the net buying cost of year 1 is twelve monthly payments plus
    the down payment: the property value of year 1 is the purchase price
    itself and cancels the purchase price added back. *)
Theorem net_buying_cost_year_1 (mortgage price down r : Q) (n : Z) :
  (0 < n)%Z ->
  exists payment costs,
    monthly_mortgage mortgage r n = Returns payment
    /\ net_buying_cost mortgage price down r n = Returns costs
    /\ nth 0 costs 0 == payment * 12 + down.
Proof.
  intro Hn.
  assert (Hp : exists payment, monthly_mortgage mortgage r n = Returns payment).
  { unfold monthly_mortgage. destruct (Qltb 0 r) eqn:E.
    - apply Qltb_lt in E. pose proof (compound_gt_1 r n E Hn).
      rewrite py_div_returns by lra. eauto.
    - rewrite py_div_returns; [eauto|].
      change 0 with (inject_Z 0). rewrite inject_Z_injective. lia. }
  destruct Hp as [payment Hp]. exists payment.
  unfold net_buying_cost. rewrite Hp. eexists. repeat split.
  simpl. ring.
Qed.

Lemma net_buying_cost_year_1_witness :
  exists payment costs,
    monthly_mortgage 568357 (1 # 300) 300 = Returns payment
    /\ net_buying_cost 568357 618357 50000 (1 # 300) 300 = Returns costs
    /\ nth 0 costs 0 == payment * 12 + 50000.
Proof.
  apply (net_buying_cost_year_1 568357 618357 50000 (1 # 300) 300). reflexivity.
Defined.

(** *** The cumulative rent *)

(** Running sums of non-negative terms do not decrease, and running sums
    of positive terms increase. *)
Lemma cumsum_from_sorted (R : Q -> Q -> Prop) (P : Q -> Prop) :
  (forall acc x, P x -> R acc (acc + x)) ->
  forall l acc, Forall P l -> Sorted R (acc :: cumsum_from acc l).
Proof.
  intros Hstep l. induction l as [|x t IH]; intros acc Hall; simpl.
  - repeat constructor.
  - inversion Hall as [|? ? Hx Ht]; subst.
    constructor; [now apply IH|]. constructor. now apply Hstep.
Qed.

Lemma cumsum_sorted (R : Q -> Q -> Prop) (P : Q -> Prop) :
  (forall acc x, P x -> R acc (acc + x)) ->
  forall l, Forall P (tl l) -> Sorted R (cumsum l).
Proof.
  intros Hstep [|x t] Hall; simpl; [constructor|].
  now apply cumsum_from_sorted with (P := P).
Qed.

Lemma rent_costs_nonneg (g rent : Q) :
  0 <= rent -> -1 <= g -> Forall (fun x => 0 <= x) (rent_costs_with g rent).
Proof.
  intros Hr Hg. unfold rent_costs_with. apply Forall_map, Forall_forall.
  intros i _. apply Qmult_le_0_compat; [assumption|].
  apply Qpower_0_le. lra.
Qed.

Lemma rent_costs_pos (g rent : Q) :
  0 < rent -> -1 < g -> Forall (fun x => 0 < x) (rent_costs_with g rent).
Proof.
  intros Hr Hg. unfold rent_costs_with. apply Forall_map, Forall_forall.
  intros i _. apply Qmult_lt_0_compat; [assumption|].
  apply Qpower_0_lt. lra.
Qed.

(** C6.  For a yearly rent [>= 0] and a growth rate [g] (of at least
    -100%, so that no year's rent is negative) the cumulative rent over the
    ten years never decreases from one year to the next; when [g > 0] and
    the rent is positive it increases strictly. *)
Theorem cumulative_rent_monotone (g rent : Q) :
  0 <= rent -> -1 <= g ->
  Sorted Qle (cumulative_rent_with g rent)
  /\ (0 < g -> 0 < rent -> Sorted Qlt (cumulative_rent_with g rent)).
Proof.
  intros Hr Hg. unfold cumulative_rent_with. split.
  - apply cumsum_sorted with (P := fun x => 0 <= x).
    + intros acc x Hx. lra.
    + pose proof (rent_costs_nonneg g rent Hr Hg) as H.
      destruct (rent_costs_with g rent); [constructor|].
      now inversion H.
  - intros Hg' Hr'. apply cumsum_sorted with (P := fun x => 0 < x).
    + intros acc x Hx. lra.
    + assert (H : Forall (fun x => 0 < x) (rent_costs_with g rent))
        by (apply rent_costs_pos; lra).
      destruct (rent_costs_with g rent); [constructor|].
      now inversion H.
Qed.

Lemma cumulative_rent_monotone_witness :
  Sorted Qle (cumulative_rent 60000)
  /\ (0 < 0.05 -> 0 < 60000 -> Sorted Qlt (cumulative_rent 60000)).
Proof.
  apply (cumulative_rent_monotone 0.05 60000); discriminate.
Defined.

(** The series of the source, whose growth rate is the literal 5%. *)
Lemma cumulative_rent_increasing (rent : Q) :
  0 < rent -> Sorted Qlt (cumulative_rent rent).
Proof.
  intro Hr. unfold cumulative_rent, cumulative_rent_with.
  apply cumsum_sorted with (P := fun x => 0 < x).
  - intros acc x Hx. lra.
  - assert (H : Forall (fun x => 0 < x) (rent_costs_with 0.05 rent))
      by (apply rent_costs_pos; [assumption | reflexivity]).
    destruct (rent_costs_with 0.05 rent); [constructor|].
    now inversion H.
Qed.

(** Ten entries, one per year. *)
Lemma cumulative_rent_length (g rent : Q) :
  List.length (cumulative_rent_with g rent) = 10%nat.
Proof. reflexivity. Qed.

End CalculatorFacts.

(** ** The comparison tool *)

Module ComparisonFacts.

Import ComparisonTool.

(** *** Percentage within budget *)

Lemma fold_indicator (budget : Q) (l : list Q) (acc : Q) :
  fold_left Qplus (map (fun p => as_number (Qle_bool p budget)) l) acc
  == acc + inject_Z (Z.of_nat (count_within l budget)).
Proof.
  revert acc. induction l as [|p t IH]; intro acc; simpl.
  - unfold count_within. simpl. ring.
  - rewrite IH. unfold count_within, as_number. simpl.
    destruct (Qle_bool p budget); simpl List.length.
    + rewrite Nat2Z.inj_succ, <- Z.add_1_l, inject_Z_plus. ring.
    + ring.
Qed.

Lemma count_within_le (l : list Q) (budget : Q) :
  (count_within l budget <= List.length l)%nat.
Proof. apply filter_length_le. Qed.

Lemma count_within_all (l : list Q) (budget : Q) :
  count_within l budget = List.length l <-> Forall (fun p => p <= budget) l.
Proof.
  unfold count_within. induction l as [|p t IH]; simpl.
  - split; [constructor | reflexivity].
  - pose proof (filter_length_le (fun q => Qle_bool q budget) t) as Hle.
    destruct (Qle_bool p budget) eqn:E; simpl; split; intro H.
    + constructor; [now apply Qle_bool_iff | apply IH; lia].
    + inversion H; subst. f_equal. now apply IH.
    + lia.
    + inversion H as [|? ? Hp _]; subst. apply Qle_bool_iff in Hp. congruence.
Qed.

Lemma count_within_none (l : list Q) (budget : Q) :
  count_within l budget = 0%nat <-> Forall (fun p => ~ p <= budget) l.
Proof.
  unfold count_within. induction l as [|p t IH]; simpl.
  - split; [constructor | reflexivity].
  - destruct (Qle_bool p budget) eqn:E; simpl; split; intro H.
    + discriminate.
    + inversion H as [|? ? Hp _]; subst. exfalso. apply Hp. now apply Qle_bool_iff.
    + constructor; [|now apply IH].
      intro Hp. apply Qle_bool_iff in Hp. congruence.
    + inversion H; subst. now apply IH.
Qed.

Lemma within_budget_count (l : list Q) (budget : Q) :
  within_budget l budget
  == inject_Z (Z.of_nat (count_within l budget)) / len l * 100.
Proof.
  unfold within_budget, mean, sum, len.
  rewrite fold_indicator, length_map, Qplus_0_l. reflexivity.
Qed.

Lemma len_pos {A} (l : list A) : l <> [] -> 0 < len l.
Proof.
  intro H. unfold len. change 0 with (inject_Z 0). rewrite <- Zlt_Qlt.
  destruct l; [congruence | simpl; lia].
Qed.

Lemma inject_nat_eq (a b : nat) :
  inject_Z (Z.of_nat a) == inject_Z (Z.of_nat b) <-> a = b.
Proof.
  rewrite inject_Z_injective. split; [apply Nat2Z.inj | congruence].
Qed.

(** C7.  For a non-empty group and any budget, the percentage within
    budget is 100 times the number of rows priced at or below the budget
    over the number of rows; it lies between 0 and 100, is 100 exactly when
    every row is within budget and 0 exactly when none is. *)
Theorem pct_within_budget (rows : list Listing) (budget : Q) :
  rows <> [] ->
  let pct := within_budget (prices rows) budget in
  pct == 100 * inject_Z (Z.of_nat (count_within (prices rows) budget)) / len rows
  /\ 0 <= pct <= 100
  /\ (pct == 100 <-> Forall (fun l => price_yearly_aed l <= budget) rows)
  /\ (pct == 0 <-> Forall (fun l => ~ price_yearly_aed l <= budget) rows).
Proof.
  intros Hne pct.
  assert (HL : 0 < len rows) by now apply len_pos.
  assert (Hlen : len (prices rows) = len rows)
    by (unfold len, prices; now rewrite length_map).
  pose proof (count_within_le (prices rows) budget) as Hle.
  assert (Hpct : pct == inject_Z (Z.of_nat (count_within (prices rows) budget))
                        / len rows * 100)
    by (unfold pct; rewrite within_budget_count, Hlen; reflexivity).
  set (c := inject_Z (Z.of_nat (count_within (prices rows) budget))) in *.
  assert (Hc0 : 0 <= c).
  { unfold c. change 0 with (inject_Z 0). rewrite <- Zle_Qle. lia. }
  assert (HcL : c <= len rows).
  { unfold c. rewrite <- Hlen. unfold len. rewrite <- Zle_Qle. lia. }
  assert (Hq0 : 0 <= c / len rows) by (apply Qle_shift_div_l; lra).
  assert (Hq1 : c / len rows <= 1) by (apply Qle_shift_div_r; lra).
  assert (Hmul : c / len rows * len rows == c) by (field; lra).
  split; [|split; [|split]].
  - rewrite Hpct. field. lra.
  - rewrite Hpct. split; lra.
  - rewrite Hpct. unfold prices in *.
    rewrite <- (Forall_map price_yearly_aed (fun p => p <= budget)).
    rewrite <- count_within_all, <- inject_nat_eq.
    fold c. fold (len (map price_yearly_aed rows)). rewrite Hlen.
    split; intro H.
    + assert (H1 : c / len rows == 1) by lra. rewrite <- Hmul, H1. ring.
    + rewrite H. field. lra.
  - rewrite Hpct. unfold prices in *.
    rewrite <- (Forall_map price_yearly_aed (fun p => ~ p <= budget)).
    rewrite <- count_within_none.
    change 0%nat with (Z.to_nat 0). rewrite <- (inject_nat_eq _ (Z.to_nat 0)).
    fold c. simpl (inject_Z (Z.of_nat (Z.to_nat 0))).
    split; intro H.
    + assert (H1 : c / len rows == 0) by lra. rewrite <- Hmul, H1. ring.
    + rewrite H. field. lra.
Qed.

Lemma pct_within_budget_witness :
  let pct := within_budget (prices Scenarios.marina) 65000 in
  pct == 100 * inject_Z (Z.of_nat (count_within (prices Scenarios.marina) 65000))
         / len Scenarios.marina
  /\ 0 <= pct <= 100
  /\ (pct == 100 <-> Forall (fun l => price_yearly_aed l <= 65000) Scenarios.marina)
  /\ (pct == 0 <-> Forall (fun l => ~ price_yearly_aed l <= 65000) Scenarios.marina).
Proof.
  apply (pct_within_budget Scenarios.marina 65000). discriminate.
Defined.

(** The statistics example: one listing of three is within 65000. *)
Lemma marina_within_budget :
  within_budget (prices Scenarios.marina) 65000 == 100 / 3.
Proof. apply Qeq_bool_iff. vm_compute. reflexivity. Qed.

(** *** The affordability score *)

Lemma affordability_ratio_returns (avg rent : Q) :
  0 < rent -> affordability_ratio avg rent = Float.Finite (avg / rent).
Proof.
  intro H. unfold affordability_ratio, Float.np_div.
  destruct (Qeq_bool rent 0) eqn:E; [|reflexivity].
  apply Qeq_bool_iff in E. lra.
Qed.

Lemma affordability_score_truncated (ratio : Q) :
  affordability_score ratio = Spec.truncated_score ratio.
Proof.
  unfold affordability_score, Spec.truncated_score.
  destruct (Qltb 1 ratio); [apply py_max_min_clamp | reflexivity].
Qed.

Lemma affordability_score_range (ratio : Q) :
  (0 <= affordability_score ratio <= 100)%Z.
Proof.
  rewrite affordability_score_truncated. unfold Spec.truncated_score, Spec.clamp.
  destruct (Qltb 1 ratio); lia.
Qed.

(** The score does not increase with the ratio. *)
Lemma affordability_score_antitone (r1 r2 : Q) :
  r1 <= r2 -> (affordability_score r2 <= affordability_score r1)%Z.
Proof.
  intro H. pose proof (affordability_score_range r2) as Hr2.
  rewrite (affordability_score_truncated r1). unfold Spec.truncated_score.
  destruct (Qltb 1 r1) eqn:E1; [|lia].
  apply Qltb_lt in E1.
  rewrite affordability_score_truncated. unfold Spec.truncated_score.
  assert (E2 : Qltb 1 r2 = true) by (apply Qltb_lt; lra).
  rewrite E2. unfold Spec.clamp.
  assert (Hm : (py_int ((1 - (r2 - 1)) * 100) <= py_int ((1 - (r1 - 1)) * 100))%Z)
    by (apply py_int_mono; lra).
  lia.
Qed.

(** *** The score with the rounding of floats *)

Lemma affordability_score_float_clamp (ratio : Q) :
  1 < ratio ->
  affordability_score_float ratio
  = Spec.clamp 0 100
      (py_int (Float.b64 (Float.b64 (1 - Float.b64 (ratio - 1)) * 100))).
Proof.
  intro H. unfold affordability_score_float.
  apply Qltb_lt in H. rewrite H. apply py_max_min_clamp.
Qed.

Lemma affordability_score_float_range (ratio : Q) :
  (0 <= affordability_score_float ratio <= 100)%Z.
Proof.
  unfold affordability_score_float. destruct (Qltb 1 ratio); [|lia].
  rewrite py_max_min_clamp. unfold Spec.clamp. lia.
Qed.

(** Each rounding is monotone, so the score does not increase with the
    ratio in floats either. *)
Lemma affordability_score_float_antitone (r1 r2 : Q) :
  r1 <= r2 -> (affordability_score_float r2 <= affordability_score_float r1)%Z.
Proof.
  intro H. pose proof (affordability_score_float_range r2) as Hr2.
  destruct (Qlt_le_dec 1 r1) as [E1|E1].
  2:{ unfold affordability_score_float at 2.
      apply Qltb_ge in E1. rewrite E1. lia. }
  rewrite !affordability_score_float_clamp by lra.
  assert (H1 : Float.b64 (r1 - 1) <= Float.b64 (r2 - 1))
    by (apply FloatFacts.b64_mono; lra).
  assert (H2 : Float.b64 (1 - Float.b64 (r2 - 1))
               <= Float.b64 (1 - Float.b64 (r1 - 1)))
    by (apply FloatFacts.b64_mono; lra).
  assert (H3 : Float.b64 (Float.b64 (1 - Float.b64 (r2 - 1)) * 100)
               <= Float.b64 (Float.b64 (1 - Float.b64 (r1 - 1)) * 100))
    by (apply FloatFacts.b64_mono; lra).
  apply py_int_mono in H3. unfold Spec.clamp. lia.
Qed.

Lemma affordability_ratio_float_mono (cheaper dearer rent : Q) :
  0 < rent -> cheaper <= dearer ->
  affordability_ratio_float cheaper rent <= affordability_ratio_float dearer rent.
Proof.
  intros Hr H. unfold affordability_ratio_float. apply FloatFacts.b64_mono.
  apply Qmult_le_compat_r; [assumption|].
  apply Qlt_le_weak, Qinv_lt_0_compat, Hr.
Qed.

(** [int(x)] is at most [x] for [x >= 0] and at least [x] for [x <= 0],
    and less than 1 away from it. *)
Lemma py_int_bounds (x : Q) :
  (0 <= x -> inject_Z (py_int x) <= x < inject_Z (py_int x) + 1)
  /\ (x <= 0 -> inject_Z (py_int x) - 1 < x <= inject_Z (py_int x)).
Proof.
  split; intro H.
  - rewrite py_int_floor by assumption.
    pose proof (Qfloor_le x). pose proof (Qlt_floor x) as Hf.
    rewrite inject_Z_plus in Hf. change (inject_Z 1) with 1 in Hf.
    split; assumption.
  - rewrite py_int_ceiling by assumption.
    pose proof (Qle_ceiling x). pose proof (Qceiling_lt x) as Hc.
    unfold Z.sub in Hc. rewrite inject_Z_plus, inject_Z_opp in Hc.
    change (inject_Z 1) with 1 in Hc.
    set (c := inject_Z (Qceiling x)) in *. clearbody c. lra.
Qed.

(** Truncations of two numbers less than 1 apart are at most 1 apart. *)
Lemma py_int_near (x y : Q) :
  -1 < x - y < 1 -> (-1 <= py_int x - py_int y <= 1)%Z.
Proof.
  intro H.
  assert (Hz : forall a b : Z,
             inject_Z a < inject_Z b + 2 -> (a - b <= 1)%Z).
  { intros a b Hab.
    assert (Hlt : (a < b + 2)%Z)
      by (rewrite Zlt_Qlt, inject_Z_plus; exact Hab).
    lia. }
  destruct (py_int_bounds x) as [Hx0 Hx1], (py_int_bounds y) as [Hy0 Hy1].
  set (a := py_int x) in *. set (b := py_int y) in *. clearbody a b.
  destruct (Qlt_le_dec x 0) as [Hx|Hx]; destruct (Qlt_le_dec y 0) as [Hy|Hy];
    try (specialize (Hx0 Hx)); try (specialize (Hy0 Hy));
    try (assert (Hx' : x <= 0) by lra; specialize (Hx1 Hx'));
    try (assert (Hy' : y <= 0) by lra; specialize (Hy1 Hy'));
    (assert (H1 : (a - b <= 1)%Z) by (apply Hz; lra));
    (assert (H2 : (b - a <= 1)%Z) by (apply Hz; lra));
    lia.
Qed.

(** The score in floats and the score in exact numbers are at most one
    point apart. *)
Lemma affordability_score_float_near (avg rent : Q) :
  0 < rent ->
  (-1 <= affordability_score_float (affordability_ratio_float avg rent)
         - affordability_score (avg / rent) <= 1)%Z.
Proof.
  intros _. unfold affordability_ratio_float.
  set (q := avg / rent). clearbody q.
  assert (E1 : Float.b64 1 == 1) by (apply FloatFacts.b64_exact; vm_compute; reflexivity).
  assert (E2 : Float.b64 2 == 2) by (apply FloatFacts.b64_exact; vm_compute; reflexivity).
  assert (E4 : Float.b64 4 == 4) by (apply FloatFacts.b64_exact; vm_compute; reflexivity).
  destruct (Qlt_le_dec 1 q) as [Hq|Hq].
  2:{ pose proof (FloatFacts.b64_mono _ _ Hq) as Hr. rewrite E1 in Hr.
      unfold affordability_score_float, affordability_score.
      apply Qltb_ge in Hr, Hq. rewrite Hr, Hq. lia. }
  rewrite affordability_score_truncated. unfold Spec.truncated_score.
  rewrite (proj2 (Qltb_lt 1 q) Hq).
  set (v := (1 - (q - 1)) * 100).
  destruct (Qlt_le_dec 1 (Float.b64 q)) as [Hr|Hr].
  - rewrite affordability_score_float_clamp by assumption.
    set (b1 := Float.b64 (Float.b64 q - 1)). set (b2 := Float.b64 (1 - b1)).
    set (b3 := Float.b64 (b2 * 100)).
    destruct (Qlt_le_dec 4 q) as [Hbig|Hsmall].
    + assert (E3 : Float.b64 3 == 3) by (apply FloatFacts.b64_exact; vm_compute; reflexivity).
      assert (En2 : Float.b64 (-2) == -2) by (apply FloatFacts.b64_exact; vm_compute; reflexivity).
      assert (En200 : Float.b64 (-200) == -200)
        by (apply FloatFacts.b64_exact; vm_compute; reflexivity).
      assert (H0 : 4 <= Float.b64 q) by (rewrite <- E4; apply FloatFacts.b64_mono; lra).
      assert (H1 : 3 <= b1) by (rewrite <- E3; apply FloatFacts.b64_mono; lra).
      assert (H2 : b2 <= -2) by (rewrite <- En2; apply FloatFacts.b64_mono; lra).
      assert (H3 : b3 <= -200) by (rewrite <- En200; apply FloatFacts.b64_mono; lra).
      assert (Hv : v <= -200) by (unfold v; lra).
      apply py_int_mono in H3, Hv.
      change (py_int (-200)) with (-200)%Z in H3, Hv.
      unfold Spec.clamp. lia.
    + assert (H0 : Float.b64 q <= 4) by (rewrite <- E4; apply FloatFacts.b64_mono; lra).
      pose proof (FloatFacts.b64_near q 4) as N0.
      pose proof (FloatFacts.b64_near (Float.b64 q - 1) 3) as N1. fold b1 in N1.
      assert (He : Float.eps == 1 # 9007199254740992) by reflexivity.
      assert (B1 : -4 <= b1 <= 4) by lra.
      pose proof (FloatFacts.b64_near (1 - b1) 5) as N2. fold b2 in N2.
      assert (B2 : -6 <= b2 <= 6) by lra.
      pose proof (FloatFacts.b64_near (b2 * 100) 600) as N3. fold b3 in N3.
      assert (Hnear : -1 < b3 - v < 1) by (unfold v; lra).
      apply py_int_near in Hnear. unfold Spec.clamp. lia.
  - assert (Hr1 : Qltb 1 (Float.b64 q) = false) by (apply Qltb_ge; assumption).
    unfold affordability_score_float. rewrite Hr1.
    assert (Hq2 : q < 2).
    { apply Qnot_le_lt. intro X. apply FloatFacts.b64_mono in X. rewrite E2 in X. lra. }
    pose proof (FloatFacts.b64_near q 2) as N0.
    assert (He : Float.eps == 1 # 9007199254740992) by reflexivity.
    assert (Hlo : 99 <= v) by (unfold v; lra).
    assert (Hhi : v <= 100) by (unfold v; lra).
    apply py_int_mono in Hlo, Hhi.
    change (py_int 99) with 99%Z in Hlo. change (py_int 100) with 100%Z in Hhi.
    unfold Spec.clamp. lia.
Qed.

(** The rounding can cost a point: an average price of 66000 against an
    affordable rent of 60000 gives 90 in exact numbers and
    89.99999999999999, hence 89, in floats. *)
Example affordability_score_66000 :
  affordability_score (66000 / 60000) = 90%Z
  /\ affordability_score_float (affordability_ratio_float 66000 60000) = 89%Z.
Proof. split; vm_compute; reflexivity. Qed.

(** C4, the counterexample.  An average price of 30120 against an
    affordable rent of 30000 gives a ratio just above 1.004 and a value
    just below 99.6: the code truncates it to 99, the rounding of the
    specification gives 100. *)
Lemma affordability_score_not_rounded :
  let ratio := affordability_ratio_float 30120 30000 in
  1 < ratio
  /\ affordability_score_float ratio = 99%Z
  /\ Spec.affordability_score ratio = 100%Z.
Proof.
  split; [vm_compute; reflexivity|]. split; vm_compute; reflexivity.
Qed.

(** C4, as amended.  For an affordable rent [> 0] the ratio is finite and
    nothing raises.  With every float operation rounded as the code rounds
    it, the score is 100 when the ratio is at most 1 and
    [clamp(0, 100, int((1 - (ratio - 1)) * 100))], where [int] truncates
    toward zero, when the ratio exceeds 1; it lies in [0, 100], does not
    increase when the average price increases, and is at most one point
    away from the same formula in exact numbers. *)
Theorem affordability_score_spec (avg_price rent : Q) :
  0 < rent ->
  let ratio := affordability_ratio_float avg_price rent in
  affordability_ratio avg_price rent = Float.Finite (avg_price / rent)
  /\ (ratio <= 1 -> affordability_score_float ratio = 100%Z)
  /\ (1 < ratio ->
      affordability_score_float ratio
      = Spec.clamp 0 100
          (py_int (Float.b64 (Float.b64 (1 - Float.b64 (ratio - 1)) * 100))))
  /\ (0 <= affordability_score_float ratio <= 100)%Z
  /\ (forall dearer, avg_price <= dearer ->
      (affordability_score_float (affordability_ratio_float dearer rent)
       <= affordability_score_float ratio)%Z)
  /\ (-1 <= affordability_score_float ratio
            - Spec.truncated_score (avg_price / rent) <= 1)%Z.
Proof.
  intros Hr ratio. split; [now apply affordability_ratio_returns|].
  split; [|split; [|split; [|split]]].
  - intro H. unfold affordability_score_float.
    apply Qltb_ge in H. now rewrite H.
  - apply affordability_score_float_clamp.
  - apply affordability_score_float_range.
  - intros dearer Hd. apply affordability_score_float_antitone.
    now apply affordability_ratio_float_mono.
  - rewrite <- affordability_score_truncated.
    now apply affordability_score_float_near.
Qed.

Lemma affordability_score_spec_witness :
  let ratio := affordability_ratio_float 90000 60000 in
  affordability_ratio 90000 60000 = Float.Finite (90000 / 60000)
  /\ (ratio <= 1 -> affordability_score_float ratio = 100%Z)
  /\ (1 < ratio ->
      affordability_score_float ratio
      = Spec.clamp 0 100
          (py_int (Float.b64 (Float.b64 (1 - Float.b64 (ratio - 1)) * 100))))
  /\ (0 <= affordability_score_float ratio <= 100)%Z
  /\ (forall dearer, 90000 <= dearer ->
      (affordability_score_float (affordability_ratio_float dearer 60000)
       <= affordability_score_float ratio)%Z)
  /\ (-1 <= affordability_score_float ratio
            - Spec.truncated_score (90000 / 60000) <= 1)%Z.
Proof.
  apply (affordability_score_spec 90000 60000). reflexivity.
Defined.

(** *** The rows of the table *)

Lemma affordable_yearly_rent_pos (annual_income : Q) :
  0 < annual_income -> 0 < affordable_yearly_rent annual_income.
Proof.
  intro H. unfold affordable_yearly_rent.
  apply Qmult_lt_0_compat; [assumption | reflexivity].
Qed.

Lemma affordability_row_returns (nb : string) (rows : list Listing) (rent : Q) :
  0 < rent ->
  exists row, affordability_row nb rows rent = Returns row
              /\ row_neighborhood row = nb
              /\ row_avg_price row = mean (prices rows).
Proof.
  intro H. unfold affordability_row.
  rewrite affordability_ratio_returns by assumption. simpl.
  eexists. repeat split.
Qed.

Lemma affordability_data_order (nbd : list Listing) (rent : Q) (selected : list string) :
  0 < rent ->
  exists rows,
    affordability_data nbd rent selected = Returns rows
    /\ map row_neighborhood rows
       = filter (fun nb => nonempty (nb_data nbd nb)) selected.
Proof.
  intro H. induction selected as [|nb rest [more [Hmore Hnames]]]; simpl.
  - exists []. split; reflexivity.
  - destruct (nb_data nbd nb) as [|l rows] eqn:E; simpl.
    + exists more. split; assumption.
    + destruct (affordability_row_returns nb (l :: rows) rent H)
        as [row [Hrow [Hnb _]]].
      rewrite Hrow, Hmore. simpl. exists (row :: more). split; [reflexivity|].
      simpl. now rewrite Hnb, Hnames.
Qed.

(** *** Division by the affordable rent *)






(** The income slider starts at 50000, so the rent of the tool is never 0. *)
Lemma slider_rent_pos (annual_income : Q) :
  50000 <= annual_income -> 0 < affordable_yearly_rent annual_income.
Proof.
  intro H. apply affordable_yearly_rent_pos. lra.
Qed.

End ComparisonFacts.

(** ** More on the affordability calculator *)

Module CalculatorMore.

Import AffordabilityCalculator Breakdown Finance.

(** X1.  The affordable yearly rent is the rent ratio, in percent, of the
    whole annual income: the yearly income plus twelve times the additional
    monthly income. *)
Theorem affordable_yearly_rent_of_income (f : FormInput) :
  affordable_yearly_rent f
  == (yearly_income f + 12 * additional_income f) * rent_income_ratio f / 100.
Proof.
  unfold affordable_yearly_rent, affordable_rent, monthly_income. field.
Qed.

Lemma py_max_0_nonneg (x : Q) : 0 <= py_max_0 x.
Proof.
  unfold py_max_0. destruct (Qltb 0 x) eqn:E.
  - apply Qltb_lt in E. lra.
  - apply Qle_refl.
Qed.

(** X2.  The four slices of the expense chart are never short of the
    monthly income, and they add up to it exactly when rent, debt and other
    expenses fit into the income; the savings slice is never negative. *)
Theorem expense_data_total (f : FormInput) :
  monthly_income f <= sum (expense_data f)
  /\ (sum (expense_data f) == monthly_income f <-> 0 <= remaining_budget f)
  /\ 0 <= nth 3 (expense_data f) 0.
Proof.
  unfold expense_data, sum. simpl nth. simpl fold_left.
  pose proof (py_max_0_nonneg (remaining_budget f)) as Hn.
  unfold py_max_0 in *. unfold remaining_budget in *.
  set (rest := monthly_income f - affordable_rent f - debt_payments f
               - other_expenses f) in *.
  destruct (Qltb 0 rest) eqn:E;
    [apply Qltb_lt in E | apply Qltb_ge in E]; unfold rest in *; clear rest;
    (split; [|split; [split; intro|]]); lra.
Qed.

(** *** The maximum mortgage as a present value *)

Lemma discount_pos (r : Q) (z : Z) : 0 <= r -> 0 < (1 + r) ^ z.
Proof. intro H. apply Qpower_0_lt. lra. Qed.

Lemma discount_succ (r : Q) (k : nat) :
  0 <= r ->
  (1 + r) ^ (- Z.of_nat (S k)) == (1 + r) ^ (- Z.of_nat k) * / (1 + r).
Proof.
  intro H. rewrite Nat2Z.inj_succ.
  replace (- Z.succ (Z.of_nat k))%Z with (- Z.of_nat k + -1)%Z by lia.
  rewrite Qpower_plus by lra. reflexivity.
Qed.

Lemma discount_le_1 (r : Q) (k : nat) :
  0 <= r -> (1 + r) ^ (- Z.of_nat k) <= 1.
Proof.
  intro H. rewrite Qpower_opp.
  assert (H1 : 1 <= (1 + r) ^ Z.of_nat k) by (apply Qpower_1_le; [lra | lia]).
  apply Qle_shift_inv_r; lra.
Qed.

(** The closed formula of the source and the discounted sum agree. *)
Lemma annuity_closed (r : Q) (k : nat) :
  0 < r -> annuity r k * r == 1 - (1 + r) ^ (- Z.of_nat k).
Proof.
  intro H. induction k as [|k IH].
  - simpl. ring.
  - change (annuity r (S k))
      with (annuity r k + (1 + r) ^ (- Z.of_nat (S k))).
    rewrite Qmult_plus_distr_l, IH, discount_succ by lra.
    field. lra.
Qed.

Lemma annuity_zero_rate (r : Q) (k : nat) :
  r == 0 -> annuity r k == inject_Z (Z.of_nat k).
Proof.
  intro H. induction k as [|k IH].
  - reflexivity.
  - change (annuity r (S k))
      with (annuity r k + (1 + r) ^ (- Z.of_nat (S k))).
    rewrite IH, Nat2Z.inj_succ, <- Z.add_1_r, inject_Z_plus.
    assert (H1 : (1 + r) ^ (- (Z.of_nat k + 1)) == 1).
    { rewrite H. setoid_replace (1 + 0) with 1 by ring. apply Qpower_1. }
    rewrite H1. reflexivity.
Qed.

Lemma max_mortgage_annuity (c r : Q) (k : nat) :
  0 <= r -> max_mortgage c r (Z.of_nat k) == c * annuity r k.
Proof.
  intro H. unfold max_mortgage. destruct (Qltb 0 r) eqn:E.
  - apply Qltb_lt in E.
    assert (Ha : annuity r k == (1 - (1 + r) ^ (- Z.of_nat k)) / r).
    { rewrite <- annuity_closed by assumption. field. lra. }
    rewrite Ha. reflexivity.
  - apply Qltb_ge in E. rewrite annuity_zero_rate by lra. reflexivity.
Qed.

(** X3.  For a rate [r >= 0] and a term of [k] months, the maximum
    mortgage is the present value of [k] monthly payments of the capacity:
    the capacity times the sum of [(1 + r) ^ (- j)] for [j = 1 .. k].  The
    branch for [r = 0] is the same sum. *)
Theorem max_mortgage_present_value (c r : Q) (k : nat) :
  0 <= r -> max_mortgage c r (Z.of_nat k) == c * annuity r k.
Proof. apply max_mortgage_annuity. Qed.

Lemma max_mortgage_present_value_witness :
  max_mortgage 3000 (1 # 300) (Z.of_nat 300) == 3000 * annuity (1 # 300) 300.
Proof.
  apply (max_mortgage_present_value 3000 (1 # 300) 300). discriminate.
Defined.

Lemma Qinv_le_contravar (x y : Q) : 0 < x -> x <= y -> / y <= / x.
Proof.
  intros Hx Hxy. apply Qle_shift_inv_r; [lra|].
  pose proof (Qinv_lt_0_compat x Hx) as Hv.
  assert (H1 : / x * x == 1) by (field; lra).
  nra.
Qed.

(** A higher rate discounts every payment more. *)
Lemma discount_antitone_rate (r1 r2 : Q) (k : nat) :
  0 <= r1 -> r1 <= r2 ->
  (1 + r2) ^ (- Z.of_nat k) <= (1 + r1) ^ (- Z.of_nat k).
Proof.
  intros H1 H12. induction k as [|k IH].
  - apply Qle_refl.
  - rewrite !discount_succ by lra.
    pose proof (discount_pos r2 (- Z.of_nat k)) as P2.
    pose proof (Qinv_lt_0_compat (1 + r2)) as Q2.
    pose proof (Qinv_le_contravar (1 + r1) (1 + r2)) as Q12.
    apply Qle_trans with ((1 + r2) ^ (- Z.of_nat k) * / (1 + r1)).
    + rewrite !((Qmult_comm ((1 + r2) ^ (- Z.of_nat k)))).
      apply Qmult_le_compat_r; [apply Q12; lra | apply Qlt_le_weak, P2; lra].
    + apply Qmult_le_compat_r; [assumption|].
      apply Qlt_le_weak, Qinv_lt_0_compat. lra.
Qed.

Lemma annuity_antitone_rate (r1 r2 : Q) (k : nat) :
  0 <= r1 -> r1 <= r2 -> annuity r2 k <= annuity r1 k.
Proof.
  intros H1 H12. induction k as [|k IH]; [apply Qle_refl|].
  change (annuity r2 (S k) <= annuity r1 (S k))
    with (annuity r2 k + (1 + r2) ^ (- Z.of_nat (S k))
          <= annuity r1 k + (1 + r1) ^ (- Z.of_nat (S k))).
  apply Qplus_le_compat; [assumption|].
  now apply discount_antitone_rate.
Qed.

Lemma annuity_mono_term (r : Q) (k k' : nat) :
  0 <= r -> (k <= k')%nat -> annuity r k <= annuity r k'.
Proof.
  intros Hr Hk. induction Hk as [|m Hm IH]; [apply Qle_refl|].
  change (annuity r (S m)) with (annuity r m + (1 + r) ^ (- Z.of_nat (S m))).
  pose proof (discount_pos r (- Z.of_nat (S m)) Hr). lra.
Qed.

Lemma annuity_lt_term (r : Q) (k : nat) :
  0 < r -> (0 < k)%nat -> 0 < annuity r k < inject_Z (Z.of_nat k).
Proof.
  intros Hr Hk.
  assert (Hd : forall j, 0 < (1 + r) ^ (- Z.of_nat (S j)) < 1).
  { intro j. split; [apply discount_pos; lra|].
    rewrite Qpower_opp. apply Qlt_shift_inv_r.
    - apply discount_pos. lra.
    - rewrite Qmult_1_l. apply Qpower_1_lt; [lra | lia]. }
  induction k as [|k IH]; [lia|].
  change (annuity r (S k)) with (annuity r k + (1 + r) ^ (- Z.of_nat (S k))).
  destruct (Hd k) as [Hd0 Hd1].
  set (d := (1 + r) ^ (- Z.of_nat (S k))) in *. clearbody d.
  rewrite Nat2Z.inj_succ, <- Z.add_1_r, inject_Z_plus.
  change (inject_Z 1) with 1.
  destruct k as [|k].
  - simpl annuity. change (inject_Z (Z.of_nat 0)) with 0. split; lra.
  - assert (Hk' : (0 < S k)%nat) by lia.
    destruct (IH Hk') as [I0 I1]. split; lra.
Qed.

(** X4.  With a capacity [>= 0], a higher interest rate never gives a
    larger maximum mortgage, for rates [>= 0] and any term of [k] months. *)
Theorem max_mortgage_antitone_rate (c r1 r2 : Q) (k : nat) :
  0 <= c -> 0 <= r1 -> r1 <= r2 ->
  max_mortgage c r2 (Z.of_nat k) <= max_mortgage c r1 (Z.of_nat k).
Proof.
  intros Hc H1 H12.
  rewrite !max_mortgage_annuity by lra.
  rewrite !(Qmult_comm c). apply Qmult_le_compat_r; [|assumption].
  now apply annuity_antitone_rate.
Qed.

Lemma max_mortgage_antitone_rate_witness :
  max_mortgage 3000 (5 # 1200) (Z.of_nat 300)
  <= max_mortgage 3000 (4 # 1200) (Z.of_nat 300).
Proof.
  apply (max_mortgage_antitone_rate 3000 (4 # 1200) (5 # 1200) 300);
    discriminate.
Defined.

(** X5.  With a positive capacity, a positive rate and a term of at least
    one month, the maximum mortgage is positive and strictly below the
    capacity times the number of months, which is what a rate of zero
    gives: interest always costs. *)
Theorem max_mortgage_below_payments (c r : Q) (k : nat) :
  0 < c -> 0 < r -> (0 < k)%nat ->
  0 < max_mortgage c r (Z.of_nat k) < max_mortgage c 0 (Z.of_nat k).
Proof.
  intros Hc Hr Hk.
  rewrite !max_mortgage_annuity by lra.
  rewrite (annuity_zero_rate 0 k) by reflexivity.
  destruct (annuity_lt_term r k Hr Hk) as [H0 H1].
  split; nra.
Qed.

Lemma max_mortgage_below_payments_witness :
  0 < max_mortgage 3000 (1 # 300) (Z.of_nat 300)
    < max_mortgage 3000 0 (Z.of_nat 300).
Proof.
  apply (max_mortgage_below_payments 3000 (1 # 300) 300);
    [reflexivity | reflexivity | lia].
Defined.

(** X6.  With a capacity [>= 0] and a rate [>= 0], a longer term never
    gives a smaller maximum mortgage. *)
Theorem max_mortgage_mono_term (c r : Q) (k k' : nat) :
  0 <= c -> 0 <= r -> (k <= k')%nat ->
  max_mortgage c r (Z.of_nat k) <= max_mortgage c r (Z.of_nat k').
Proof.
  intros Hc Hr Hk.
  rewrite !max_mortgage_annuity by assumption.
  rewrite !(Qmult_comm c). apply Qmult_le_compat_r; [|assumption].
  now apply annuity_mono_term.
Qed.

Lemma max_mortgage_mono_term_witness :
  max_mortgage 3000 (1 # 300) (Z.of_nat 60)
  <= max_mortgage 3000 (1 # 300) (Z.of_nat 300).
Proof.
  apply (max_mortgage_mono_term 3000 (1 # 300) 60 300);
    [discriminate | discriminate | lia].
Defined.

(** *** The payment formula *)

Lemma compound_ne_1 (r : Q) (n : Z) :
  0 < r -> (n <> 0)%Z -> ~ (1 + r) ^ n - 1 == 0.
Proof.
  intros Hr Hn.
  destruct (Z.lt_trichotomy n 0) as [Hneg | [Hz | Hpos]]; [|lia|].
  - assert (Hq : 1 < (1 + r) ^ (- n))
      by (apply Qpower_1_lt; [lra | lia]).
    replace n with (- - n)%Z by lia. rewrite Qpower_opp.
    assert (Hi : / (1 + r) ^ (- n) < 1).
    { apply Qlt_shift_inv_r; [lra|]. rewrite Qmult_1_l. assumption. }
    lra.
  - assert (Hq : 1 < (1 + r) ^ n) by (apply Qpower_1_lt; [lra | lia]).
    lra.
Qed.

(** X7.  The monthly payment cannot be computed for a term of zero months,
    and only then: both branches of the formula divide by zero exactly when
    [n = 0]. *)
Theorem monthly_mortgage_raises_iff (mortgage r : Q) (n : Z) :
  monthly_mortgage mortgage r n = Raises ArithmeticError <-> n = 0%Z.
Proof.
  unfold monthly_mortgage. split.
  - intro H. destruct (Z.eq_dec n 0) as [|Hn]; [assumption|]. exfalso.
    destruct (Qltb 0 r) eqn:E.
    + apply Qltb_lt in E.
      rewrite py_div_returns in H by now apply compound_ne_1.
      discriminate.
    + rewrite py_div_returns in H; [discriminate|].
      change 0 with (inject_Z 0). now rewrite inject_Z_injective.
  - intros ->. destruct (Qltb 0 r); apply py_div_raises; reflexivity.
Qed.

(** X8.  For every rate and a positive term the two formulas are inverse to
    each other, on the branch for [r > 0] and on the other: the payment on
    the maximum mortgage of a capacity is that capacity, and the maximum
    mortgage of the payment on a loan is that loan. *)
Theorem mortgage_payment_inverse (x r : Q) (n : Z) :
  (0 < n)%Z ->
  (exists p, monthly_mortgage (max_mortgage x r n) r n = Returns p /\ p == x)
  /\ (exists p, monthly_mortgage x r n = Returns p /\ max_mortgage p r n == x).
Proof.
  intro Hn. unfold monthly_mortgage, max_mortgage.
  destruct (Qltb 0 r) eqn:E.
  - apply Qltb_lt in E.
    pose proof (compound_ne_1 r n E) as Hd.
    assert (Hq : 1 < (1 + r) ^ n) by (apply Qpower_1_lt; [lra | lia]).
    rewrite !py_div_returns by (apply Hd; lia).
    split; eexists; (split; [reflexivity|]);
      rewrite Qpower_opp; set (q := (1 + r) ^ n) in *; clearbody q;
      field; repeat split; lra.
  - assert (Hz : ~ inject_Z n == 0).
    { change 0 with (inject_Z 0). rewrite inject_Z_injective. lia. }
    rewrite !py_div_returns by assumption.
    split; eexists; (split; [reflexivity|]); field; assumption.
Qed.

Lemma mortgage_payment_inverse_witness :
  (exists p, monthly_mortgage (max_mortgage 3000 0 300) 0 300 = Returns p
             /\ p == 3000)
  /\ (exists p, monthly_mortgage 3000 0 300 = Returns p
                /\ max_mortgage p 0 300 == 3000).
Proof.
  apply (mortgage_payment_inverse 3000 0 300). reflexivity.
Defined.

(** *** The two projections, year by year *)

(** X9.  In year [i + 1] of the ten years, the net cost of buying is
    [i + 1] years of mortgage payments plus the down payment, less the gain
    in value of the property, [price * (1.03 ^ i - 1)]. *)
Theorem net_buying_cost_closed_form (payment price down : Q) (i : nat) :
  (i < 10)%nat ->
  nth i (net_buying_cost_from payment price down) 0
  == inject_Z (Z.of_nat (S i)) * (payment * 12) + down
     - price * ((1 + 0.03) ^ Z.of_nat i - 1).
Proof.
  intro Hi.
  do 10 (destruct i as [|i]; [simpl; ring|]).
  lia.
Qed.

Lemma net_buying_cost_closed_form_witness :
  nth 9 (net_buying_cost_from 3000 618357 50000) 0
  == inject_Z (Z.of_nat 10) * (3000 * 12) + 50000
     - 618357 * ((1 + 0.03) ^ Z.of_nat 9 - 1).
Proof.
  apply (net_buying_cost_closed_form 3000 618357 50000 9). lia.
Defined.

(** X10.  After [i + 1] of the ten years the cumulative rent is the
    geometric sum [rent * (1.05 ^ (i + 1) - 1) / 0.05]. *)
Theorem cumulative_rent_closed_form (rent : Q) (i : nat) :
  (i < 10)%nat ->
  nth i (cumulative_rent rent) 0
  == rent * ((1 + 0.05) ^ Z.of_nat (S i) - 1) / 0.05.
Proof.
  intro Hi.
  do 10 (destruct i as [|i]; [simpl; field|]).
  lia.
Qed.

Lemma cumulative_rent_closed_form_witness :
  nth 9 (cumulative_rent 60000) 0
  == 60000 * ((1 + 0.05) ^ Z.of_nat 10 - 1) / 0.05.
Proof.
  apply (cumulative_rent_closed_form 60000 9). lia.
Defined.

End CalculatorMore.

(** ** More on the comparison tool *)

Module ComparisonMoreFacts.

Import ComparisonTool ComparisonMore.

(** *** Selection, filters and groups *)

Lemma unique_In (l : list string) (x : string) : In x (unique l) <-> In x l.
Proof.
  induction l as [|y t IH]; simpl; [tauto|].
  rewrite filter_In, IH. split.
  - intros [H | [H _]]; auto.
  - intros [H | H]; [auto|].
    destruct (String.eqb y x) eqn:E.
    + apply String.eqb_eq in E. auto.
    + right. auto.
Qed.

Lemma existsb_eqb_In (x : string) (l : list string) :
  existsb (String.eqb x) l = true <-> In x l.
Proof.
  rewrite existsb_exists. split.
  - intros [y [Hy E]]. apply String.eqb_eq in E. now subst.
  - intro H. exists x. split; [assumption | apply String.eqb_refl].
Qed.

Lemma nb_data_empty_iff (nbd : list Listing) (nb : string) :
  nb_data nbd nb = [] <-> ~ In nb (map neighborhood nbd).
Proof.
  unfold nb_data. induction nbd as [|l t IH]; simpl; [tauto|].
  destruct (String.eqb (neighborhood l) nb) eqn:E.
  - apply String.eqb_eq in E. split; [discriminate | intro H; exfalso; auto].
  - apply String.eqb_neq in E. rewrite IH. tauto.
Qed.

Lemma nonempty_false {A} (l : list A) : nonempty l = false <-> l = [].
Proof. destruct l; simpl; split; congruence. Qed.

(** The warning names a neighbourhood exactly when the loop skips it. *)
Lemma missing_flag (nbd : list Listing) (nb : string) :
  negb (existsb (String.eqb nb) (unique (map neighborhood nbd)))
  = negb (nonempty (nb_data nbd nb)).
Proof.
  f_equal. destruct (nonempty (nb_data nbd nb)) eqn:E.
  - apply existsb_eqb_In, unique_In.
    destruct (in_dec string_dec nb (map neighborhood nbd)) as [H|H]; [assumption|].
    apply nb_data_empty_iff in H. rewrite H in E. discriminate.
  - apply nonempty_false, nb_data_empty_iff in E.
    destruct (existsb (String.eqb nb) (unique (map neighborhood nbd))) eqn:X;
      [|reflexivity].
    apply existsb_eqb_In in X. apply -> unique_In in X. contradiction.
Qed.

(** X11.  For a positive income every selected neighbourhood is either
    named in the warning about missing data or gets a row of the
    affordability table, never both and never neither: the rows are the
    selection without the missing names, in the order of the selection, and
    a name is missing exactly when no listing of it passed the filters. *)
Theorem rows_and_missing_partition
    (data : list Listing) (selected : list string)
    (selected_property_type selected_bedrooms : string) (annual_income : Q) :
  0 < annual_income ->
  let filtered := filtered_data data selected_property_type selected_bedrooms in
  let nbd := neighborhood_data filtered selected in
  let missing := missing_neighborhoods nbd selected in
  exists rows,
    show_affordability_index
      data selected selected_property_type selected_bedrooms annual_income
    = Returns rows
    /\ map row_neighborhood rows
       = filter (fun nb => negb (existsb (String.eqb nb) missing)) selected
    /\ (List.length rows + List.length missing = List.length selected)%nat
    /\ (forall nb, In nb missing
                   <-> In nb selected /\ ~ In nb (map neighborhood filtered)).
Proof.
  intros H filtered nbd missing.
  destruct (ComparisonFacts.affordability_data_order
              nbd (affordable_yearly_rent annual_income) selected)
    as [rows [Hrows Hnames]].
  { now apply ComparisonFacts.affordable_yearly_rent_pos. }
  exists rows. split; [exact Hrows|].
  assert (Hmiss : missing
                  = filter (fun nb => negb (nonempty (nb_data nbd nb))) selected).
  { unfold missing, missing_neighborhoods. apply filter_ext.
    intro nb. apply missing_flag. }
  assert (Hin : forall nb, In nb selected ->
                existsb (String.eqb nb) missing
                = negb (nonempty (nb_data nbd nb))).
  { intros nb Hs. destruct (nonempty (nb_data nbd nb)) eqn:E; simpl.
    - destruct (existsb (String.eqb nb) missing) eqn:X; [|reflexivity].
      apply existsb_eqb_In in X. rewrite Hmiss in X.
      apply filter_In in X. rewrite E in X. destruct X. discriminate.
    - apply existsb_eqb_In. rewrite Hmiss. apply filter_In.
      rewrite E. auto. }
  split; [|split].
  - rewrite Hnames. apply filter_ext_in. intros nb Hs.
    rewrite (Hin nb Hs). now rewrite negb_involutive.
  - rewrite <- (length_map row_neighborhood), Hnames, Hmiss.
    apply filter_length.
  - intro nb. rewrite Hmiss, filter_In. unfold nbd.
    rewrite negb_true_iff, nonempty_false, nb_data_empty_iff.
    unfold neighborhood_data. split.
    + intros [Hs Hn]. split; [assumption|]. intro Hf. apply Hn.
      apply in_map_iff in Hf. destruct Hf as [l [Hl Hf]].
      apply in_map_iff. exists l. split; [assumption|].
      apply filter_In. split; [assumption|].
      apply existsb_eqb_In. now rewrite Hl.
    + intros [Hs Hn]. split; [assumption|]. intro Hf. apply Hn.
      apply in_map_iff in Hf. destruct Hf as [l [Hl Hf]].
      apply filter_In in Hf. apply in_map_iff. exists l. tauto.
Qed.

Lemma rows_and_missing_partition_witness :
  let filtered := filtered_data Scenarios.two_neighborhoods "All" "3+ BR" in
  let nbd := neighborhood_data filtered Scenarios.dearer_first in
  let missing := missing_neighborhoods nbd Scenarios.dearer_first in
  exists rows,
    show_affordability_index
      Scenarios.two_neighborhoods Scenarios.dearer_first "All" "3+ BR" 200000
    = Returns rows
    /\ map row_neighborhood rows
       = filter (fun nb => negb (existsb (String.eqb nb) missing))
                Scenarios.dearer_first
    /\ (List.length rows + List.length missing
        = List.length Scenarios.dearer_first)%nat
    /\ (forall nb, In nb missing
                   <-> In nb Scenarios.dearer_first
                       /\ ~ In nb (map neighborhood filtered)).
Proof.
  apply (rows_and_missing_partition
           Scenarios.two_neighborhoods Scenarios.dearer_first
           "All" "3+ BR" 200000).
  reflexivity.
Defined.

(** X12.  Restricting the data to the selected neighbourhoods first loses
    nothing: the group of a selected neighbourhood is exactly its listings
    among the filtered data, in their order, and the group of a
    neighbourhood that is not selected is empty. *)
Theorem nb_data_of_neighborhood_data
    (filtered : list Listing) (selected : list string) (nb : string) :
  (In nb selected ->
   nb_data (neighborhood_data filtered selected) nb = nb_data filtered nb)
  /\ (~ In nb selected ->
      nb_data (neighborhood_data filtered selected) nb = []).
Proof.
  unfold nb_data, neighborhood_data. split; intro H.
  - induction filtered as [|l t IH]; simpl; [reflexivity|].
    destruct (String.eqb (neighborhood l) nb) eqn:E.
    + assert (Hs : existsb (String.eqb (neighborhood l)) selected = true).
      { apply existsb_eqb_In. apply String.eqb_eq in E. now rewrite E. }
      rewrite Hs. simpl. rewrite E. now f_equal.
    + destruct (existsb (String.eqb (neighborhood l)) selected); simpl;
        [rewrite E|]; assumption.
  - induction filtered as [|l t IH]; simpl; [reflexivity|].
    destruct (existsb (String.eqb (neighborhood l)) selected) eqn:Hs;
      [|assumption].
    simpl. destruct (String.eqb (neighborhood l) nb) eqn:E; [|assumption].
    apply String.eqb_eq in E. apply existsb_eqb_In in Hs.
    rewrite E in Hs. contradiction.
Qed.

Lemma nb_data_of_neighborhood_data_witness :
  nb_data (neighborhood_data Scenarios.two_neighborhoods Scenarios.dearer_first)
          "Dubai Marina"
  = nb_data Scenarios.two_neighborhoods "Dubai Marina".
Proof.
  apply (proj1 (nb_data_of_neighborhood_data
                  Scenarios.two_neighborhoods Scenarios.dearer_first
                  "Dubai Marina")).
  left. reflexivity.
Defined.

(** X13.  The four bedroom choices split the listings: a listing with a
    number of bedrooms [>= 0] passes the filter of exactly one of "Studio",
    "1 BR", "2 BR" and "3+ BR". *)
Theorem bedroom_options_partition (l : Listing) :
  (0 <= bedrooms l)%Z ->
  exists choice,
    In choice bedroom_options
    /\ filtered_data [l] "All" choice = [l]
    /\ forall other, In other bedroom_options -> other <> choice ->
                     filtered_data [l] "All" other = [].
Proof.
  intro H. unfold bedroom_options.
  destruct (Z.eq_dec (bedrooms l) 0) as [E0|N0];
    [|destruct (Z.eq_dec (bedrooms l) 1) as [E1|N1];
      [|destruct (Z.eq_dec (bedrooms l) 2) as [E2|N2]]].
  - exists "Studio"%string. split; [simpl; tauto|]. unfold filtered_data. simpl.
    rewrite E0. split; [reflexivity|].
    intros other [<-|[<-|[<-|[<-|[]]]]] Hne; simpl; congruence.
  - exists "1 BR"%string. split; [simpl; tauto|]. unfold filtered_data. simpl.
    rewrite E1. split; [reflexivity|].
    intros other [<-|[<-|[<-|[<-|[]]]]] Hne; simpl; congruence.
  - exists "2 BR"%string. split; [simpl; tauto|]. unfold filtered_data. simpl.
    rewrite E2. split; [reflexivity|].
    intros other [<-|[<-|[<-|[<-|[]]]]] Hne; simpl; congruence.
  - exists "3+ BR"%string. split; [simpl; tauto|]. unfold filtered_data. simpl.
    assert (H3 : (3 <=? bedrooms l)%Z = true) by (apply Z.leb_le; lia).
    assert (B0 : (bedrooms l =? 0)%Z = false) by (apply Z.eqb_neq; lia).
    assert (B1 : (bedrooms l =? 1)%Z = false) by (apply Z.eqb_neq; lia).
    assert (B2 : (bedrooms l =? 2)%Z = false) by (apply Z.eqb_neq; lia).
    rewrite H3. split; [reflexivity|].
    intros other [<-|[<-|[<-|[<-|[]]]]] Hne; simpl;
      rewrite ?B0, ?B1, ?B2; congruence.
Qed.

Lemma bedroom_options_partition_witness :
  exists choice,
    In choice bedroom_options
    /\ filtered_data [Scenarios.listing "Marina" 60000] "All" choice
       = [Scenarios.listing "Marina" 60000]
    /\ forall other, In other bedroom_options -> other <> choice ->
                     filtered_data [Scenarios.listing "Marina" 60000] "All" other
                     = [].
Proof.
  apply (bedroom_options_partition (Scenarios.listing "Marina" 60000)).
  discriminate.
Defined.

Lemma affordability_row_zero_rent (nb : string) (rows : list Listing) (rent : Q) :
  rent == 0 ->
  (0 < mean (prices rows) ->
   affordability_row nb rows rent = Raises ArithmeticError)
  /\ (mean (prices rows) <= 0 ->
      exists row, affordability_row nb rows rent = Returns row
                  /\ row_neighborhood row = nb
                  /\ row_affordability_score row = 100%Z).
Proof.
  intro H. unfold affordability_row, affordability_ratio, Float.np_div.
  apply Qeq_bool_iff in H. rewrite H. split; intro Hm.
  - assert (E : Qltb 0 (mean (prices rows)) = true) by (apply Qltb_lt; assumption).
    rewrite E. reflexivity.
  - assert (E : Qltb 0 (mean (prices rows)) = false) by (apply Qltb_ge; assumption).
    rewrite E. destruct (Qltb (mean (prices rows)) 0);
      simpl; eexists; repeat split.
Qed.

(** X14.  With an affordable rent of zero the division raises nothing.
    The table is aborted by the [int(...)] of an infinite score as soon as
    one selected neighbourhood with listings has a positive average price;
    when no average price is positive, every selected neighbourhood with
    listings gets its row, with a score of 100. *)
Theorem zero_rent_outcome (nbd : list Listing) (rent : Q) (selected : list string) :
  rent == 0 ->
  (Exists (fun nb => nb_data nbd nb <> []
                     /\ 0 < mean (prices (nb_data nbd nb))) selected ->
   affordability_data nbd rent selected = Raises ArithmeticError)
  /\ (Forall (fun nb => mean (prices (nb_data nbd nb)) <= 0) selected ->
      exists rows,
        affordability_data nbd rent selected = Returns rows
        /\ map row_neighborhood rows
           = filter (fun nb => nonempty (nb_data nbd nb)) selected
        /\ Forall (fun row => row_affordability_score row = 100%Z) rows).
Proof.
  intro H. split.
  - induction selected as [|nb rest IH]; intro Hex.
    + inversion Hex.
    + simpl. destruct (nb_data nbd nb) as [|l rows] eqn:E.
      * apply IH. inversion Hex as [? ? [Hne _]|]; subst; [|assumption].
        now rewrite E in Hne.
      * inversion Hex as [? ? [_ Hpos]|? ? Hrest]; subst.
        -- rewrite E in Hpos.
           now rewrite (proj1 (affordability_row_zero_rent nb _ rent H) Hpos).
        -- rewrite (IH Hrest).
           destruct (affordability_row nb (l :: rows) rent) as [row|[]];
             reflexivity.
  - induction selected as [|nb rest IH]; intro Hall.
    + exists []. repeat split. constructor.
    + inversion Hall as [|? ? Hnb Hrest]; subst.
      destruct (IH Hrest) as [more [Hmore [Hnames Hscores]]].
      simpl. destruct (nb_data nbd nb) as [|l rows] eqn:E.
      * exists more. simpl. auto.
      * destruct (proj2 (affordability_row_zero_rent nb (l :: rows) rent H) Hnb)
          as [row [Hrow [Hname Hscore]]].
        rewrite Hrow, Hmore. simpl. exists (row :: more).
        split; [reflexivity|]. split.
        -- simpl. now rewrite Hname, Hnames.
        -- now constructor.
Qed.

Lemma zero_rent_outcome_witness :
  affordability_data Scenarios.marina 0 ["Marina"%string] = Raises ArithmeticError
  /\ exists rows,
       affordability_data [Scenarios.listing "Marina" 0] 0 ["Marina"%string]
       = Returns rows
       /\ map row_neighborhood rows
          = filter (fun nb => nonempty (nb_data [Scenarios.listing "Marina" 0] nb))
                   ["Marina"%string]
       /\ Forall (fun row => row_affordability_score row = 100%Z) rows.
Proof.
  split.
  - apply (zero_rent_outcome Scenarios.marina 0 ["Marina"%string]);
      [reflexivity|].
    apply Exists_cons_hd. split; [discriminate | reflexivity].
  - apply (zero_rent_outcome [Scenarios.listing "Marina" 0] 0 ["Marina"%string]);
      [reflexivity|].
    repeat constructor. discriminate.
Defined.

(** *** The aggregated prices of a group *)

Lemma fold_min_le (t : list Q) (m : Q) :
  let r := fold_left (fun m y => if Qltb y m then y else m) t m in
  r <= m /\ Forall (fun x => r <= x) t.
Proof.
  revert m. induction t as [|y t IH]; intro m; simpl.
  - split; [apply Qle_refl | constructor].
  - destruct (Qltb y m) eqn:E; [apply Qltb_lt in E | apply Qltb_ge in E].
    + destruct (IH y) as [H1 H2]. split; [lra|]. constructor; assumption.
    + destruct (IH m) as [H1 H2]. split; [assumption|].
      constructor; [lra | assumption].
Qed.

Lemma fold_max_ge (t : list Q) (m : Q) :
  let r := fold_left (fun m y => if Qltb m y then y else m) t m in
  m <= r /\ Forall (fun x => x <= r) t.
Proof.
  revert m. induction t as [|y t IH]; intro m; simpl.
  - split; [apply Qle_refl | constructor].
  - destruct (Qltb m y) eqn:E; [apply Qltb_lt in E | apply Qltb_ge in E].
    + destruct (IH y) as [H1 H2]. split; [lra|]. constructor; assumption.
    + destruct (IH m) as [H1 H2]. split; [assumption|].
      constructor; [lra | assumption].
Qed.

Lemma minimum_le (l : list Q) : Forall (fun x => minimum l <= x) l.
Proof.
  destruct l as [|x t]; [constructor|]. unfold minimum.
  destruct (fold_min_le t x) as [H1 H2]. constructor; assumption.
Qed.

Lemma maximum_ge (l : list Q) : Forall (fun x => x <= maximum l) l.
Proof.
  destruct l as [|x t]; [constructor|]. unfold maximum.
  destruct (fold_max_ge t x) as [H1 H2]. constructor; assumption.
Qed.

(** A sum of terms between two bounds. *)
Lemma fold_sum_bounds (lo hi : Q) (l : list Q) (acc : Q) :
  Forall (fun x => lo <= x <= hi) l ->
  acc + len l * lo <= fold_left Qplus l acc <= acc + len l * hi.
Proof.
  unfold len. intro H. revert acc.
  induction H as [|x t [Hlo Hhi] Ht IH]; intro acc; simpl fold_left.
  - change (inject_Z (Z.of_nat (List.length (@nil Q)))) with 0. split; lra.
  - destruct (IH (acc + x)) as [I1 I2].
    simpl List.length. rewrite Nat2Z.inj_succ, <- Z.add_1_r, inject_Z_plus.
    change (inject_Z 1) with 1.
    set (n := inject_Z (Z.of_nat (List.length t))) in *. clearbody n.
    split; lra.
Qed.

Lemma mean_bounds (lo hi : Q) (l : list Q) :
  l <> [] -> Forall (fun x => lo <= x <= hi) l -> lo <= mean l <= hi.
Proof.
  intros Hne H. unfold mean, sum.
  pose proof (ComparisonFacts.len_pos l Hne) as HL.
  destruct (fold_sum_bounds lo hi l 0 H) as [H1 H2].
  split; [apply Qle_shift_div_l | apply Qle_shift_div_r]; lra.
Qed.

Lemma insert_In (x y : Q) (l : list Q) : In y (insert x l) <-> y = x \/ In y l.
Proof.
  induction l as [|z t IH]; simpl; [intuition congruence|].
  destruct (Qle_bool x z); simpl; [intuition congruence|].
  rewrite IH. tauto.
Qed.

Lemma sort_In (l : list Q) (y : Q) : In y (sort l) <-> In y l.
Proof.
  induction l as [|x t IH]; simpl; [tauto|].
  rewrite insert_In, IH. intuition congruence.
Qed.

Lemma insert_length (x : Q) (l : list Q) :
  List.length (insert x l) = S (List.length l).
Proof.
  induction l as [|z t IH]; simpl; [reflexivity|].
  destruct (Qle_bool x z); simpl; [reflexivity | now rewrite IH].
Qed.

Lemma sort_length (l : list Q) : List.length (sort l) = List.length l.
Proof.
  induction l as [|x t IH]; simpl; [reflexivity|].
  now rewrite insert_length, IH.
Qed.

Lemma median_bounds (lo hi : Q) (l : list Q) :
  l <> [] -> Forall (fun x => lo <= x <= hi) l -> lo <= median l <= hi.
Proof.
  intros Hne H. unfold median.
  assert (Hn : (0 < List.length l)%nat) by (destruct l; [congruence | simpl; lia]).
  assert (Hnth : forall i, (i < List.length l)%nat ->
                           lo <= nth i (sort l) 0 <= hi).
  { intros i Hi. rewrite Forall_forall in H. apply H, sort_In.
    apply nth_In. now rewrite sort_length. }
  assert (Hmid : (List.length l / 2 < List.length l)%nat)
    by (apply Nat.div_lt; lia).
  destruct (Nat.even (List.length l)).
  - destruct (Hnth (List.length l / 2)%nat Hmid) as [A1 A2].
    destruct (Hnth (List.length l / 2 - 1)%nat) as [B1 B2]; [lia|].
    split; [apply Qle_shift_div_l | apply Qle_shift_div_r]; lra.
  - now apply Hnth.
Qed.

(** X15.  For a non-empty group the aggregated prices are ordered: the
    minimum is at most the mean and the median, and these are at most the
    maximum; the same holds for the whole numbers that the table shows, and
    the count is the number of listings. *)
Theorem price_comparison_ordered (rows : list Listing) :
  rows <> [] ->
  let s := price_comparison rows in
  price_min s <= price_mean s <= price_max s
  /\ price_min s <= price_median s <= price_max s
  /\ (py_int (price_min s) <= py_int (price_mean s) <= py_int (price_max s))%Z
  /\ (py_int (price_min s) <= py_int (price_median s) <= py_int (price_max s))%Z
  /\ Forall (fun l => price_min s <= price_yearly_aed l <= price_max s) rows.
Proof.
  intros Hne s. unfold s, price_comparison. simpl.
  assert (Hp : prices rows <> [])
    by (unfold prices; destruct rows; [congruence | discriminate]).
  assert (Hb : Forall (fun x => minimum (prices rows) <= x <= maximum (prices rows))
                      (prices rows)).
  { pose proof (minimum_le (prices rows)) as H1.
    pose proof (maximum_ge (prices rows)) as H2.
    rewrite Forall_forall in *. intros x Hx. split; auto. }
  destruct (mean_bounds _ _ _ Hp Hb) as [M1 M2].
  destruct (median_bounds _ _ _ Hp Hb) as [D1 D2].
  repeat split; try assumption; try (apply py_int_mono; assumption).
  unfold prices in Hb. now rewrite Forall_map in Hb.
Qed.

Lemma price_comparison_ordered_witness :
  let s := price_comparison Scenarios.marina in
  price_min s <= price_mean s <= price_max s
  /\ price_min s <= price_median s <= price_max s
  /\ (py_int (price_min s) <= py_int (price_mean s) <= py_int (price_max s))%Z
  /\ (py_int (price_min s) <= py_int (price_median s) <= py_int (price_max s))%Z
  /\ Forall (fun l => price_min s <= price_yearly_aed l <= price_max s)
            Scenarios.marina.
Proof.
  apply (price_comparison_ordered Scenarios.marina). discriminate.
Defined.

(** The statistics example: 60000, 70000 and 80000. *)
Example marina_price_comparison :
  let s := price_comparison Scenarios.marina in
  price_mean s == 70000 /\ price_median s == 70000
  /\ price_min s == 60000 /\ price_max s == 80000
  /\ price_count s = 3%nat.
Proof. repeat split; vm_compute; reflexivity. Qed.

(** *** Score, status and budget together *)

Lemma py_int_lt (x : Q) (z : Z) : (0 < z)%Z -> x < inject_Z z -> (py_int x < z)%Z.
Proof.
  intros Hz Hx. destruct (Qlt_le_dec x 0) as [Hneg|Hpos].
  - rewrite py_int_ceiling by lra.
    assert (H : (Qceiling x <= Qceiling 0)%Z) by (apply Qceiling_resp_le; lra).
    change (Qceiling 0) with 0%Z in H. lia.
  - rewrite py_int_floor by assumption.
    pose proof (Qfloor_le x) as Hf.
    rewrite Zlt_Qlt. lra.
Qed.

Lemma py_int_ge (x : Q) (z : Z) : inject_Z z <= x -> (z <= py_int x)%Z.
Proof.
  intro H. apply py_int_mono in H.
  assert (E : py_int (inject_Z z) = z)
    by (unfold py_int; simpl; apply Z.quot_1_r).
  now rewrite E in H.
Qed.

Lemma score_and_status (ratio : Q) :
  (affordability_score ratio = 100%Z
   <-> affordability_status ratio = Affordable)
  /\ (affordability_status ratio = Affordable <-> ratio <= 1)
  /\ (affordability_score ratio = 0%Z <-> 1.99 < ratio).
Proof.
  assert (Hst : affordability_status ratio = Affordable <-> ratio <= 1).
  { unfold affordability_status. destruct (Qle_bool ratio 1) eqn:E.
    - apply Qle_bool_iff in E. tauto.
    - split; [discriminate|]. intro H. apply Qle_bool_iff in H. congruence. }
  rewrite Hst. rewrite ComparisonFacts.affordability_score_truncated.
  unfold Spec.truncated_score, Spec.clamp.
  destruct (Qltb 1 ratio) eqn:E; [apply Qltb_lt in E | apply Qltb_ge in E].
  - set (v := (1 - (ratio - 1)) * 100).
    assert (Hv : (py_int v < 100)%Z)
      by (apply py_int_lt; [lia | unfold v; change (inject_Z 100) with 100; lra]).
    split; [|split; [tauto|]].
    + split; [lia | lra].
    + split; intro H.
      * destruct (Qlt_le_dec 1.99 ratio) as [|Hle]; [assumption|]. exfalso.
        assert (H1 : (1 <= py_int v)%Z)
          by (apply py_int_ge; unfold v; change (inject_Z 1) with 1; lra).
        lia.
      * assert (H0 : (py_int v < 1)%Z)
          by (apply py_int_lt; [lia | unfold v; change (inject_Z 1) with 1; lra]).
        lia.
  - split; [|split; [tauto|]].
    + tauto.
    + split; [discriminate | lra].
Qed.

(** X16.  The score is 100 exactly for a neighbourhood whose status is
    Affordable (ratio at most 1); it is 0 exactly when the average price
    exceeds 1.99 times the affordable rent. *)
Theorem affordability_score_extremes (ratio : Q) :
  (affordability_score ratio = 100%Z
   <-> affordability_status ratio = Affordable)
  /\ (affordability_status ratio = Affordable <-> ratio <= 1)
  /\ (affordability_score ratio = 0%Z <-> 1.99 < ratio).
Proof. apply score_and_status. Qed.

Lemma fold_min_In (t : list Q) (m : Q) :
  In (fold_left (fun m y => if Qltb y m then y else m) t m) (m :: t).
Proof.
  revert m. induction t as [|y t IH]; intro m; simpl; [auto|].
  destruct (Qltb y m); destruct (IH y), (IH m); simpl in *; auto.
Qed.

Lemma mean_gt (b : Q) (l : list Q) :
  l <> [] -> Forall (fun x => b < x) l -> b < mean l.
Proof.
  intros Hne H.
  assert (Hm : b < minimum l).
  { rewrite Forall_forall in H. apply H.
    destruct l as [|x t]; [congruence|]. apply fold_min_In. }
  assert (Hb : Forall (fun x => minimum l <= x <= maximum l) l).
  { pose proof (minimum_le l) as H1. pose proof (maximum_ge l) as H2.
    rewrite Forall_forall in *. intros x Hx. split; auto. }
  destruct (mean_bounds _ _ _ Hne Hb). lra.
Qed.

Lemma mean_le (b : Q) (l : list Q) :
  l <> [] -> Forall (fun x => x <= b) l -> mean l <= b.
Proof.
  intros Hne H.
  assert (Hb : Forall (fun x => minimum l <= x <= b) l).
  { pose proof (minimum_le l) as H1.
    rewrite Forall_forall in *. intros x Hx. split; auto. }
  now destruct (mean_bounds _ _ _ Hne Hb).
Qed.

Lemma within_budget_all (l : list Q) (b : Q) :
  l <> [] -> Forall (fun p => p <= b) l -> within_budget l b == 100.
Proof.
  intros Hne H. rewrite ComparisonFacts.within_budget_count.
  apply ComparisonFacts.count_within_all in H. rewrite H.
  fold (len l). pose proof (ComparisonFacts.len_pos l Hne). field. lra.
Qed.

Lemma within_budget_none (l : list Q) (b : Q) :
  Forall (fun p => ~ p <= b) l -> within_budget l b == 0.
Proof.
  intro H. rewrite ComparisonFacts.within_budget_count.
  apply ComparisonFacts.count_within_none in H. rewrite H.
  unfold Qdiv. change (inject_Z (Z.of_nat 0)) with 0. ring.
Qed.

(** X17.  For a group with listings and an affordable rent [> 0]: when
    every listing is priced within the rent, the row says Affordable, score
    100 and 100 percent within budget; when every listing is priced above
    it, the row says Unaffordable, a score below 100 and 0 percent. *)
Theorem affordability_row_extremes
    (nb : string) (rows : list Listing) (rent : Q) :
  rows <> [] -> 0 < rent ->
  exists row,
    affordability_row nb rows rent = Returns row
    /\ (Forall (fun l => price_yearly_aed l <= rent) rows ->
        row_affordability_status row = Affordable
        /\ row_affordability_score row = 100%Z
        /\ row_within_budget_pct row == 100)
    /\ (Forall (fun l => rent < price_yearly_aed l) rows ->
        row_affordability_status row = Unaffordable
        /\ (row_affordability_score row < 100)%Z
        /\ row_within_budget_pct row == 0).
Proof.
  intros Hne Hrent.
  assert (Hp : prices rows <> [])
    by (unfold prices; destruct rows; [congruence | discriminate]).
  unfold affordability_row.
  rewrite ComparisonFacts.affordability_ratio_returns by assumption.
  simpl. eexists. split; [reflexivity|]. simpl.
  destruct (score_and_status (mean (prices rows) / rent)) as [Hs [Ha _]].
  split; intro H.
  - assert (Hall : Forall (fun p => p <= rent) (prices rows))
      by (unfold prices; now rewrite Forall_map).
    assert (Hr : mean (prices rows) / rent <= 1).
    { apply Qle_shift_div_r; [assumption|].
      rewrite Qmult_1_l. now apply mean_le. }
    apply Ha in Hr. split; [assumption|].
    split; [now apply Hs | now apply within_budget_all].
  - assert (Hall : Forall (fun p => rent < p) (prices rows))
      by (unfold prices; now rewrite Forall_map).
    assert (Hr : ~ mean (prices rows) / rent <= 1).
    { intro Hle. pose proof (mean_gt rent _ Hp Hall) as Hg.
      assert (Hm : mean (prices rows) / rent * rent == mean (prices rows))
        by (field; lra).
      assert (mean (prices rows) / rent * rent <= 1 * rent)
        by (apply Qmult_le_compat_r; lra).
      lra. }
    pose proof (ComparisonFacts.affordability_score_range
                  (mean (prices rows) / rent)) as Hrange.
    split; [|split].
    + destruct (affordability_status (mean (prices rows) / rent));
        [exfalso; apply Hr, Ha; reflexivity | reflexivity].
    + destruct (Z.eq_dec (affordability_score (mean (prices rows) / rent)) 100)
        as [E|E]; [|lia].
      exfalso. apply Hr, Ha, Hs, E.
    + apply within_budget_none.
      rewrite Forall_forall in *. intros p Hin Hle.
      specialize (Hall p Hin). lra.
Qed.

Lemma affordability_row_extremes_witness :
  exists row,
    affordability_row "Marina" Scenarios.marina 90000 = Returns row
    /\ (Forall (fun l => price_yearly_aed l <= 90000) Scenarios.marina ->
        row_affordability_status row = Affordable
        /\ row_affordability_score row = 100%Z
        /\ row_within_budget_pct row == 100)
    /\ (Forall (fun l => 90000 < price_yearly_aed l) Scenarios.marina ->
        row_affordability_status row = Unaffordable
        /\ (row_affordability_score row < 100)%Z
        /\ row_within_budget_pct row == 0).
Proof.
  apply (affordability_row_extremes "Marina" Scenarios.marina 90000);
    [discriminate | reflexivity].
Defined.

(** X18.  For a commute time [>= 0] the value on the radar chart lies
    between 0 and 5, does not increase with the commute time, and is 0
    exactly from 50 minutes on. *)
Theorem commute_normalized_range (commute_time : Q) :
  0 <= commute_time ->
  0 <= commute_normalized commute_time <= 5
  /\ (commute_normalized commute_time == 0 <-> 50 <= commute_time)
  /\ (forall longer, commute_time <= longer ->
      commute_normalized longer <= commute_normalized commute_time).
Proof.
  intro H. unfold commute_normalized.
  assert (Hx : commute_time / 10 * 10 == commute_time) by field.
  destruct (Qltb (commute_time / 10) 5) eqn:E;
    [apply Qltb_lt in E | apply Qltb_ge in E].
  - split; [split; lra|]. split; [split; intro; lra|].
    intros longer Hl.
    assert (Hy : longer / 10 * 10 == longer) by field.
    destruct (Qltb (longer / 10) 5) eqn:E';
      [apply Qltb_lt in E' | apply Qltb_ge in E']; lra.
  - split; [split; lra|]. split; [split; intro; lra|].
    intros longer Hl.
    assert (Hy : longer / 10 * 10 == longer) by field.
    destruct (Qltb (longer / 10) 5) eqn:E';
      [apply Qltb_lt in E' | apply Qltb_ge in E']; lra.
Qed.

Lemma commute_normalized_range_witness :
  0 <= commute_normalized 25 <= 5
  /\ (commute_normalized 25 == 0 <-> 50 <= 25)
  /\ (forall longer, 25 <= longer ->
      commute_normalized longer <= commute_normalized 25).
Proof.
  apply (commute_normalized_range 25). discriminate.
Defined.

End ComparisonMoreFacts.

(** ** The ranking of the map page *)

Module RankingFacts.

Import ComparisonTool ComparisonMore MapVisualization.

(** *** The order of strings *)





(** *** The groups *)








(** *** Sorted frames *)




(** *** The two sorts *)







(** *** The stable sort breaks ties by name *)








(** *** The list of the page *)




(** The example: Business Bay at 60000 comes before Dubai Marina at 80000. *)
Example two_neighborhoods_ranked :
  map group_neighborhood
      (affordable_neighborhoods sort_stable Scenarios.two_neighborhoods)
  = ["Business Bay"; "Dubai Marina"]%string.
Proof. vm_compute. reflexivity. Qed.

End RankingFacts.

(** ** The generated records *)

Module DataLoaderFacts.

Import DataLoader.

Lemma py_max_Zmax (a b : Z) : py_max a b = Z.max a b.
Proof. unfold py_max. destruct (Z.ltb_spec a b); lia. Qed.

Lemma py_min_Zmin (a b : Z) : py_min a b = Z.min a b.
Proof. unfold py_min. destruct (Z.ltb_spec b a); lia. Qed.

Lemma bathrooms_range (beds choice : Z) : (1 <= bathrooms beds choice)%Z.
Proof. unfold bathrooms. rewrite py_max_Zmax. lia. Qed.

(** X19.  Whatever the draw among [bedrooms - 1], [bedrooms] and
    [bedrooms + 1], a record has at least one bathroom and never more
    bathrooms than [max(1, bedrooms)]: the draw of [bedrooms + 1] gives the
    same as the draw of [bedrooms]. *)
Theorem bathrooms_bounds (beds choice : Z) :
  In choice (bathroom_choices beds) ->
  (1 <= bathrooms beds choice <= Z.max 1 beds)%Z
  /\ bathrooms beds (beds + 1) = bathrooms beds beds.
Proof.
  unfold bathroom_choices, bathrooms.
  rewrite !py_max_Zmax, !py_min_Zmin.
  intros [<-|[<-|[<-|[]]]]; lia.
Qed.

Lemma bathrooms_bounds_witness :
  (1 <= bathrooms 0 (0 - 1) <= Z.max 1 0)%Z
  /\ bathrooms 0 (0 + 1) = bathrooms 0 0.
Proof.
  apply (bathrooms_bounds 0 (0 - 1)). left. reflexivity.
Defined.

(** *** The monthly price *)

Lemma round_near (x : Q) :
  inject_Z (Spec.round x) - (1 # 2) <= x <= inject_Z (Spec.round x) + (1 # 2).
Proof.
  unfold Spec.round.
  pose proof (Qfloor_le x) as Hlo. pose proof (Qlt_floor x) as Hhi.
  rewrite inject_Z_plus in Hhi. change (inject_Z 1) with 1 in Hhi.
  set (f := Qfloor x) in *.
  destruct (x - inject_Z f ?= 1 # 2) eqn:E.
  - apply Qeq_alt in E. destruct (Z.even f).
    + split; lra.
    + rewrite inject_Z_plus. change (inject_Z 1) with 1. split; lra.
  - apply Qlt_alt in E. split; lra.
  - apply Qgt_alt in E. rewrite inject_Z_plus. change (inject_Z 1) with 1.
    split; lra.
Qed.

Lemma py_int_hundreds (z : Z) : py_int (inject_Z z * 100) = (z * 100)%Z.
Proof. unfold py_int. simpl. apply Z.quot_1_r. Qed.

Lemma monthly_near (yearly : Z) :
  (exists h, price_monthly_aed yearly = h * 100)%Z
  /\ inject_Z yearly / 12 - 50
     <= inject_Z (price_monthly_aed yearly)
     <= inject_Z yearly / 12 + 50.
Proof.
  unfold price_monthly_aed, round_hundreds.
  rewrite py_int_hundreds. split; [eexists; reflexivity|].
  rewrite inject_Z_mult. change (inject_Z 100) with 100.
  pose proof (round_near (inject_Z yearly / 12 / 100)) as [H1 H2].
  set (m := inject_Z yearly / 12) in *.
  assert (Hm : m / 100 * 100 == m) by field.
  set (k := inject_Z (Spec.round (m / 100))) in *. clearbody k.
  split; lra.
Qed.

(** X20.  The monthly price of a record is a whole number of hundreds and
    differs from a twelfth of the yearly price by at most 50. *)
Theorem price_monthly_aed_rounding (yearly : Z) :
  (exists h, price_monthly_aed yearly = h * 100)%Z
  /\ inject_Z yearly / 12 - 50
     <= inject_Z (price_monthly_aed yearly)
     <= inject_Z yearly / 12 + 50.
Proof. apply monthly_near. Qed.

(** *** The invariants of a record *)

(** An unknown area has the factor 1.0; every factor is at least 0.7. *)
Lemma area_factor_bounds (area : string) :
  0.7 <= dict_get area_price_factors area 1.0 <= 1.8.
Proof.
  cbv beta iota delta [dict_get area_price_factors].
  repeat match goal with
         | |- context [String.eqb ?a ?b] => destruct (String.eqb a b)
         end; split; lra.
Qed.

Ltac known_type T :=
  change (bedrooms T ?x) with x in *;
  change (bedroom_choices T) with
    (ltac:(let v := eval vm_compute in (bedroom_choices T) in exact v)) in *;
  change (size_draw_bounds T) with
    (ltac:(let v := eval vm_compute in (size_draw_bounds T) in exact v)) in *;
  change (dict_get property_type_factors T 1.0) with
    (ltac:(let v := eval vm_compute in (dict_get property_type_factors T 1.0)
           in exact v)) in *;
  cbv beta iota delta [size_sqft] in *;
  change (String.eqb T "Studio") with false in *;
  try change (String.eqb T "Apartment") with true in *;
  try change (String.eqb T "Apartment") with false in *;
  try change (String.eqb T "Penthouse") with true in *;
  try change (String.eqb T "Penthouse") with false in *;
  cbv beta iota in *; cbn [fst snd In] in *.

Lemma size_sqft_min (d : Draws) :
  possible d ->
  (300 <= size_sqft (draw_property_type d)
                    (bedrooms (draw_property_type d) (draw_bedrooms d))
                    (draw_size d))%Z
  /\ (0 <= bedrooms (draw_property_type d) (draw_bedrooms d))%Z
  /\ (bedrooms (draw_property_type d) (draw_bedrooms d) = 0%Z
      <-> draw_property_type d = "Studio"%string)
  /\ 0.9 <= dict_get property_type_factors (draw_property_type d) 1.0.
Proof.
  intros (Ht & Hb & _ & Hs & _).
  unfold property_types in Ht.
  destruct Ht as [E|[E|[E|[E|[E|[]]]]]]; rewrite <- E in *.
  - known_type "Apartment"%string.
    assert (B : (1 <= draw_bedrooms d <= 4)%Z)
      by (destruct Hb as [B|[B|[B|[B|[]]]]]; [discriminate|..]; lia).
    repeat split; try nia; try discriminate; try lra.
  - known_type "Villa"%string.
    assert (B : (2 <= draw_bedrooms d <= 6)%Z)
      by (destruct Hb as [B|[B|[B|[B|[B|[]]]]]]; [discriminate|..]; lia).
    repeat split; try nia; try discriminate; try lra.
  - known_type "Townhouse"%string.
    assert (B : (2 <= draw_bedrooms d <= 6)%Z)
      by (destruct Hb as [B|[B|[B|[B|[B|[]]]]]]; [discriminate|..]; lia).
    repeat split; try nia; try discriminate; try lra.
  - known_type "Penthouse"%string.
    assert (B : (2 <= draw_bedrooms d <= 5)%Z)
      by (destruct Hb as [B|[B|[B|[B|[]]]]]; [discriminate|..]; lia).
    repeat split; try nia; try discriminate; try lra.
  - change (bedrooms "Studio" (draw_bedrooms d)) with 0%Z.
    change (size_sqft "Studio" 0 (draw_size d)) with (draw_size d).
    change (size_draw_bounds "Studio") with (300, 600)%Z in Hs.
    change (dict_get property_type_factors "Studio" 1.0) with 0.9.
    cbn [fst snd] in Hs.
    repeat split; try lia; try lra.
Qed.

(** X21.  Every record that the loader can generate keeps the invariants
    of a listing: bedrooms [>= 0], and 0 exactly for a studio; at least one
    bathroom; a size of at least 300 sqft; a yearly price of at least 15000
    and a monthly price of at least 1200; a neighbourhood outside the table
    of areas is in the area "Other". *)
Theorem generate_invariants (d : Draws) :
  possible d ->
  let g := generate d in
  (0 <= gen_bedrooms g)%Z
  /\ (gen_bedrooms g = 0%Z <-> gen_property_type g = "Studio"%string)
  /\ (1 <= gen_bathrooms g)%Z
  /\ (300 <= gen_size_sqft g)%Z
  /\ (15000 <= gen_price_yearly_aed g)%Z
  /\ (1200 <= gen_price_monthly_aed g)%Z
  /\ (~ In (gen_neighborhood g) (map fst neighborhood_to_area) ->
      gen_area g = "Other"%string).
Proof.
  intros Hp g.
  destruct (size_sqft_min d Hp) as (Hsize & Hbeds & Hstudio & Hfactor).
  destruct Hp as (_ & _ & Hbath & _ & Hu).
  unfold g, generate. cbn [gen_bedrooms gen_property_type gen_bathrooms
    gen_size_sqft gen_price_yearly_aed gen_price_monthly_aed gen_area
    gen_neighborhood].
  set (bd := bedrooms (draw_property_type d) (draw_bedrooms d)) in *.
  set (sz := size_sqft (draw_property_type d) bd (draw_size d)) in *.
  set (area := dict_get neighborhood_to_area (draw_neighborhood d) "Other"%string).
  assert (Hy : (15000 <= price_yearly_aed
                           sz (price_per_sqft area (draw_property_type d)
                                              (draw_uniform d)))%Z).
  { unfold price_yearly_aed. apply ComparisonMoreFacts.py_int_ge.
    unfold price_per_sqft, base_price_per_sqft.
    pose proof (area_factor_bounds area) as [Ha _].
    set (fa := dict_get area_price_factors area 1.0) in *. clearbody fa.
    set (ft := dict_get property_type_factors (draw_property_type d) 1.0) in *.
    clearbody ft.
    assert (Hs : 300 <= inject_Z sz)
      by (change 300 with (inject_Z 300); rewrite <- Zle_Qle; assumption).
    set (s := inject_Z sz) in *. clearbody s.
    change (inject_Z 15000) with 15000.
    assert (H1 : 0.63 <= fa * ft) by nra.
    assert (H2 : 56.7 <= 90 * (fa * ft)) by lra.
    assert (H3 : 51.03 <= 90 * (fa * ft) * draw_uniform d) by nra.
    nra. }
  split; [assumption|]. split; [assumption|].
  split; [apply (bathrooms_range bd (draw_bathrooms d))|].
  split; [assumption|]. split; [assumption|]. split.
  - set (yearly := price_yearly_aed sz _) in *. clearbody yearly.
    destruct (monthly_near yearly) as [[h Hh] [Hlo _]].
    assert (Hq : 1250 <= inject_Z yearly / 12).
    { apply Qle_shift_div_l; [reflexivity|].
      change (1250 * 12) with (inject_Z 15000). now rewrite <- Zle_Qle. }
    assert (Hm : 1200 <= inject_Z (price_monthly_aed yearly)) by lra.
    change 1200 with (inject_Z 1200) in Hm. now rewrite <- Zle_Qle in Hm.
  - intro Hn. unfold area. clear - Hn.
    induction neighborhood_to_area as [|[k v] t IH]; simpl in *; [reflexivity|].
    destruct (String.eqb k (draw_neighborhood d)) eqn:E.
    + apply String.eqb_eq in E. exfalso. auto.
    + apply IH. auto.
Qed.

Lemma marina_apartment_possible : possible Samples.marina_apartment.
Proof.
  unfold possible, Samples.marina_apartment.
  cbn [draw_property_type draw_bedrooms draw_bathrooms draw_size draw_uniform].
  split; [left; reflexivity|].
  split; [intros _; right; left; reflexivity|].
  split; [right; left; reflexivity|].
  split; [vm_compute; split; discriminate|].
  split; discriminate.
Qed.

Lemma generate_invariants_witness :
  let g := generate Samples.marina_apartment in
  (0 <= gen_bedrooms g)%Z
  /\ (gen_bedrooms g = 0%Z <-> gen_property_type g = "Studio"%string)
  /\ (1 <= gen_bathrooms g)%Z
  /\ (300 <= gen_size_sqft g)%Z
  /\ (15000 <= gen_price_yearly_aed g)%Z
  /\ (1200 <= gen_price_monthly_aed g)%Z
  /\ (~ In (gen_neighborhood g) (map fst neighborhood_to_area) ->
      gen_area g = "Other"%string).
Proof.
  apply (generate_invariants Samples.marina_apartment).
  exact marina_apartment_possible.
Defined.

(** The sample record: 1200 sqft at 117 a square foot. *)
Example marina_apartment_generated :
  let g := generate Samples.marina_apartment in
  gen_area g = "Marina Area"%string
  /\ gen_size_sqft g = 1200%Z
  /\ gen_price_yearly_aed g = 140400%Z
  /\ gen_price_monthly_aed g = 11700%Z.
Proof. repeat split; vm_compute; reflexivity. Qed.

End DataLoaderFacts.

(** ** The map and the quarters *)

Module MapTrendFacts.

Import MapVisualization TrendAnalysis.

(** X22.  The radius of a marker starts above 10 for a neighbourhood with
    at least one property, grows with the number of properties and stops at
    30, which it reaches exactly from 40 properties on. *)
Theorem radius_range (property_count : Z) :
  (1 <= property_count)%Z ->
  10 < radius property_count <= 30
  /\ (radius property_count == 30 <-> (40 <= property_count)%Z)
  /\ (forall more, (property_count <= more)%Z ->
      radius property_count <= radius more).
Proof.
  intro H. unfold radius.
  assert (Hc : 1 <= inject_Z property_count)
    by (change 1 with (inject_Z 1); now rewrite <- Zle_Qle).
  assert (H40 : (40 <= property_count)%Z <-> 40 <= inject_Z property_count)
    by (change 40 with (inject_Z 40); rewrite <- Zle_Qle; reflexivity).
  rewrite H40.
  destruct (Qltb 30 (10 + inject_Z property_count * 0.5)) eqn:E;
    [apply Qltb_lt in E | apply Qltb_ge in E].
  - split; [split; lra|]. split; [split; intro; lra|].
    intros more Hm. rewrite Zle_Qle in Hm.
    destruct (Qltb 30 (10 + inject_Z more * 0.5)) eqn:E';
      [apply Qltb_lt in E' | apply Qltb_ge in E']; lra.
  - split; [split; lra|]. split; [split; intro; lra|].
    intros more Hm. rewrite Zle_Qle in Hm.
    destruct (Qltb 30 (10 + inject_Z more * 0.5)) eqn:E';
      [apply Qltb_lt in E' | apply Qltb_ge in E']; lra.
Qed.

Lemma radius_range_witness :
  10 < radius 12 <= 30
  /\ (radius 12 == 30 <-> (40 <= 12)%Z)
  /\ (forall more, (12 <= more)%Z -> radius 12 <= radius more).
Proof.
  apply (radius_range 12). lia.
Defined.

Lemma quarter_back_index (current_year cq i : Z) :
  quarter_index (quarter_back current_year cq i)
  = (4 * current_year + cq - i)%Z.
Proof.
  unfold quarter_index, quarter_back.
  destruct (cq - i mod 4 <=? 0)%Z; cbn [fst snd];
    Z.div_mod_to_equations; lia.
Qed.

Lemma quarter_back_number (current_year cq i : Z) :
  (1 <= cq <= 4)%Z -> (1 <= snd (quarter_back current_year cq i) <= 4)%Z.
Proof.
  intro H. unfold quarter_back.
  destruct (Z.leb_spec (cq - i mod 4) 0); cbn [snd];
    Z.div_mod_to_equations; lia.
Qed.

Lemma quarter_back_now (current_year cq : Z) :
  (1 <= cq)%Z -> quarter_back current_year cq 0 = (current_year, cq).
Proof.
  intro H. unfold quarter_back.
  change (0 mod 4)%Z with 0%Z. change (0 / 4)%Z with 0%Z.
  destruct (Z.leb_spec (cq - 0) 0); [lia|]. f_equal; lia.
Qed.

(** X23.  For a month from 1 to 12 the current quarter is from 1 to 4;
    the eight labels are then eight consecutive quarters in time order, each
    with a quarter number from 1 to 4, and the last one is the current
    quarter of the current year. *)
Theorem quarters_consecutive (current_year month : Z) :
  (1 <= month <= 12)%Z ->
  let cq := current_quarter month in
  (1 <= cq <= 4)%Z
  /\ map quarter_index (quarters current_year cq)
     = map (fun i => (4 * current_year + cq - 7 + i)%Z) (range 8)
  /\ Forall (fun yq => (1 <= snd yq <= 4)%Z) (quarters current_year cq)
  /\ last (quarters current_year cq) (0, 0)%Z = (current_year, cq).
Proof.
  intros Hm cq.
  assert (Hq : (1 <= cq <= 4)%Z).
  { unfold cq, current_quarter.
    assert (0 <= (month - 1) / 3 < 4)%Z; [|lia].
    split; [apply Z.div_pos; lia|].
    apply Z.div_lt_upper_bound; lia. }
  split; [assumption|]. clearbody cq. unfold quarters.
  split; [|split].
  - rewrite <- map_rev, map_map.
    rewrite (map_ext _ _ (quarter_back_index current_year cq)).
    change (range 8) with [0; 1; 2; 3; 4; 5; 6; 7]%Z.
    cbn [map rev app]. repeat (apply f_equal2; [lia|]). reflexivity.
  - apply Forall_rev, Forall_map, Forall_forall.
    intros i _. now apply quarter_back_number.
  - change (range 8) with [0; 1; 2; 3; 4; 5; 6; 7]%Z.
    cbn [map rev app last]. apply quarter_back_now. lia.
Qed.

Lemma quarters_consecutive_witness :
  let cq := current_quarter 11 in
  (1 <= cq <= 4)%Z
  /\ map quarter_index (quarters 2026 cq)
     = map (fun i => (4 * 2026 + cq - 7 + i)%Z) (range 8)
  /\ Forall (fun yq => (1 <= snd yq <= 4)%Z) (quarters 2026 cq)
  /\ last (quarters 2026 cq) (0, 0)%Z = (2026, cq)%Z.
Proof.
  apply (quarters_consecutive 2026 11). lia.
Defined.

End MapTrendFacts.
